(** * Turf booking backend (app.py): a shallow embedding of the booking,
    cancellation, listing, turf-management and account views, over a
    store of MongoDB collections modelled as lists in natural (insertion)
    order. *)

From Stdlib Require Import ZArith List String Ascii Bool Lia Floats.
Import ListNotations.
Open Scope Z_scope.
Set Warnings "-register-all".

(** ** JSON values, as [request.get_json()] delivers them

    [json.loads] makes a number written without fraction or exponent a
    Python [int] (unbounded), and any other number, [NaN] and [Infinity]
    included, a [float] (IEEE binary64).  A string is kept as the UTF-8
    bytes of the Python string (escapes of lone surrogates, which no
    encoder downstream accepts, are left out).  An object is the dict
    [json.loads] builds, one binding per key (for a repeated key the dict
    keeps the last value). *)

Inductive jval : Type :=
| JNull
| JBool (b : bool)
| JInt (z : Z)
| JFloat (f : float)
| JStr (s : string)
| JList (l : list jval)
| JObj (kv : list (string * jval)).

(** Python truthiness, used by [not all([...])] and [if not x]: [0],
    [0.0] and [-0.0] are false, [NaN] is true. *)
Definition truthy (v : jval) : bool :=
  match v with
  | JNull => false
  | JBool b => b
  | JInt z => negb (Z.eqb z 0)
  | JFloat f => negb (PrimFloat.eqb f 0%float)
  | JStr s => negb (String.eqb s EmptyString)
  | JList l => match l with [] => false | _ => true end
  | JObj kv => match kv with [] => false | _ => true end
  end.

(** A request body: the dict of a JSON object, as an association list. *)
Definition body := list (string * jval).

(** [data.get(k, dflt)]: the binding of [k], or [dflt]. *)
Fixpoint dget_default (d : body) (k : string) (dflt : jval) : jval :=
  match d with
  | [] => dflt
  | (k', v) :: d' => if String.eqb k k' then v else dget_default d' k dflt
  end.

(** [data.get(k)]: [None] when absent. *)
Definition dget (d : body) (k : string) : jval := dget_default d k JNull.

(** [k in data]. *)
Definition dhas (d : body) (k : string) : bool :=
  existsb (fun kv => String.eqb k (fst kv)) d.

(** ** bson ObjectId

    An ObjectId is 12 bytes, kept as its 24 hexadecimal nibbles.
    [ObjectId(s)] on a string accepts exactly 24 characters and decodes them
    with [bytes.fromhex], which takes both cases of the hex letters; any
    other string raises [InvalidId] ([None] here).  ([bytes.fromhex] also
    skips ASCII whitespace between byte pairs; such 24-character strings
    are treated as invalid here.)  [str(oid)] prints lower-case hex. *)

Definition oid := list Z.

Definition hex_val (c : ascii) : option Z :=
  let n := Z.of_nat (nat_of_ascii c) in
  if (48 <=? n) && (n <=? 57) then Some (n - 48)
  else if (97 <=? n) && (n <=? 102) then Some (n - 87)
  else if (65 <=? n) && (n <=? 70) then Some (n - 55)
  else None.

Fixpoint hex_decode (cs : list ascii) : option (list Z) :=
  match cs with
  | [] => Some []
  | c :: cs' =>
      match hex_val c, hex_decode cs' with
      | Some v, Some vs => Some (v :: vs)
      | _, _ => None
      end
  end.

Definition ObjectId (s : string) : option oid :=
  if Nat.eqb (String.length s) 24 then hex_decode (list_ascii_of_string s)
  else None.

Definition hex_digit (v : Z) : ascii :=
  if v <? 10 then ascii_of_nat (Z.to_nat (v + 48))
  else ascii_of_nat (Z.to_nat (v + 87)).

Definition oid_str (o : oid) : string :=
  string_of_list_ascii (map hex_digit o).

Fixpoint nibbles (k : nat) (n : Z) (acc : list Z) : list Z :=
  match k with
  | O => acc
  | S k' => nibbles k' (n / 16) ((n mod 16) :: acc)
  end.

(** The id [insert_one] assigns to the [n]-th inserted document. *)
Definition fresh_oid (n : Z) : oid := nibbles 24 n [].

Definition oid_eqb (a b : oid) : bool :=
  if list_eq_dec Z.eq_dec a b then true else false.

(** ** Datetimes

    A Python [datetime] as [dateutil.parser.parse] returns it: [dt_us] is
    its wall-clock reading in microseconds since 1970-01-01 00:00 when it
    is naive, and the UTC instant it denotes, in microseconds since the
    epoch, when it is aware. *)

Record datetime : Type := mkDatetime {
  dt_us : Z;
  dt_aware : bool
}.

(** [a >= b]: comparing a naive with an aware datetime raises [TypeError]
    ([None]); two aware ones compare as UTC instants (two calls of
    [parser.parse] never share a tzinfo object whose offset varies). *)
Definition dt_ge (a b : datetime) : option bool :=
  if Bool.eqb (dt_aware a) (dt_aware b) then Some (dt_us b <=? dt_us a) else None.

(** [datetime.min] and [datetime.max] in microseconds from the epoch. *)
Definition dt_min_us : Z := -62135596800000000.
Definition dt_max_us : Z := 253402300799999999.

(** pymongo's encoding of a datetime as a BSON date: an aware one is first
    shifted to UTC ([value - value.utcoffset()]), which raises
    [OverflowError] ([None]) when that leaves [datetime.min ..
    datetime.max]; the milliseconds are then taken rounding down.  A naive
    datetime is taken as UTC and is always in range. *)
Definition to_ms (d : datetime) : option Z :=
  if (dt_min_us <=? dt_us d) && (dt_us d <=? dt_max_us)
  then Some (dt_us d / 1000) else None.

(** ** Python float arithmetic

    [int / int] ([long_true_divide]) and [float(int)] ([PyLong_AsDouble])
    are correctly rounded, ties to even. *)

Definition round_core (sgn : bool) (r : Z * Z * location) : spec_float :=
  let '(m, e, l) := r in binary_round_aux prec emax sgn m e l.

(** [n / m] for Python ints with [m > 0] and a quotient far below 2^1024
    (so [long_true_divide] does not raise). *)
Definition int_true_div (n m : Z) : float :=
  SF2Prim
    (match n with
     | Z0 => S754_zero false
     | Zpos p => round_core false (SFdiv_core_binary prec emax (Zpos p) 0 m 0)
     | Zneg p => round_core true (SFdiv_core_binary prec emax (Zpos p) 0 m 0)
     end).

(** [float(n)] for a Python int: [OverflowError] ([None]) when the
    rounded value is not finite. *)
Definition int_to_float (z : Z) : option float :=
  match binary_normalize prec emax z 0 false with
  | S754_infinity _ => None
  | x => Some (SF2Prim x)
  end.

(** ** Writing documents

    pymongo encodes a document before it sends it: an int outside the
    signed 64-bit range raises [OverflowError], a key holding a NUL byte
    raises [InvalidDocument]; keys are checked before their values. *)

Definition has_nul (k : string) : bool :=
  existsb (fun c => Ascii.eqb c Ascii.zero) (list_ascii_of_string k).

Fixpoint bson_err (v : jval) : option string :=
  match v with
  | JInt z =>
      if (- 2 ^ 63 <=? z) && (z <? 2 ^ 63) then None else Some "OverflowError"%string
  | JList l =>
      (fix go (l : list jval) : option string :=
         match l with
         | [] => None
         | x :: l' => match bson_err x with Some e => Some e | None => go l' end
         end) l
  | JObj kv =>
      (fix go (kv : list (string * jval)) : option string :=
         match kv with
         | [] => None
         | (k, x) :: kv' =>
             if has_nul k then Some "InvalidDocument"%string else
             match bson_err x with Some e => Some e | None => go kv' end
         end) kv
  | _ => None
  end.

Fixpoint first_err (l : list (option string)) : option string :=
  match l with
  | [] => None
  | Some e :: _ => Some e
  | None :: l' => first_err l'
  end.

(** What [insert_one] or [update_one] raises for a document carrying the
    request values [vs] (in document order): pymongo's encoding errors
    first, then the server's refusal ([accept vs = false]), reported as
    [WriteError]. *)
Definition write_err (accept : list jval -> bool) (vs : list jval) : option string :=
  match first_err (map bson_err vs) with
  | Some e => Some e
  | None => if accept vs then None else Some "WriteError"%string
  end.

(** ** Documents of the [turfs] and [bookings] collections *)

Record turf : Type := mkTurf {
  t_id : oid;
  t_owner_id : string;
  t_name : jval;
  t_location : jval;
  t_size : jval;
  t_amenities : jval;
  t_price_per_hour : jval;
  t_availability : jval;
  t_surface_type : jval;
  t_capacity : jval;
  t_description : jval
}.

(** A stored booking.  [start_time], [end_time] and [created_at] are BSON
    dates: milliseconds since the epoch, UTC. *)
Record booking : Type := mkBooking {
  b_id : oid;
  b_user_id : string;
  b_turf_id : string;
  b_start_time : Z;
  b_end_time : Z;
  b_status : string;
  b_total_cost : float;
  b_created_at : Z;
  b_notes : jval
}.

Record st : Type := mkSt {
  turfs : list turf;
  bookings : list booking;
  next_oid : Z
}.

(** [bookings_schema.dump]: the schema lists the fields [id], [user_id],
    [turf_id], [start_time], [end_time], [status], [total_cost],
    [created_at], [notes]; the stored document has [_id] and no [id], so
    the dump carries the other eight. *)
Record booking_dump : Type := mkDump {
  d_user_id : string;
  d_turf_id : string;
  d_start_time : Z;
  d_end_time : Z;
  d_status : string;
  d_total_cost : float;
  d_created_at : Z;
  d_notes : jval
}.

Definition dump (b : booking) : booking_dump :=
  mkDump (b_user_id b) (b_turf_id b) (b_start_time b) (b_end_time b)
         (b_status b) (b_total_cost b) (b_created_at b) (b_notes b).

(** The identity the [token_required] decorator passes on:
    [(data['user_type'], data['user_id'])]. *)
Definition cur_user := (string * string)%type.

(** What a view returns: a JSON message with its HTTP status, the
    created-document answer (201), a dumped list (200), or an exception
    that escapes the view (Flask turns it into a 500). *)
Inductive resp : Type :=
| RMsg (code : Z) (msg : string)
| RCreated (msg : string) (id : string)
| RList (items : list booking_dump)
| RCrash (exn : string).

(** ** Helpers shared by the views *)

(** Mongo's filter [{'availability': True}] on a stored value: the boolean
    [true], or an array one of whose elements is the boolean [true]
    (numbers never equal booleans). *)
Definition matches_true (v : jval) : bool :=
  match v with
  | JBool true => true
  | JList l => existsb (fun x => match x with JBool true => true | _ => false end) l
  | _ => false
  end.

(** [find_one({'_id': o, 'availability': True})] on [turfs]. *)
Definition find_turf_avail (o : oid) (ts : list turf) : option turf :=
  find (fun t => oid_eqb (t_id t) o && matches_true (t_availability t)) ts.

(** [find_one({'_id': o, 'owner_id': owner})] on [turfs]. *)
Definition find_turf_owned (o : oid) (owner : string) (ts : list turf)
  : option turf :=
  find (fun t => oid_eqb (t_id t) o && String.eqb (t_owner_id t) owner) ts.

(** The [$or] of the overlap query of [book_turf], for a stored booking
    [[bs, be]] and a requested [[s, e]], all BSON dates (milliseconds):
    [start_time in [s, e]], or [end_time in [s, e]], or
    [start_time <= s and end_time >= e]. *)
Definition overlap_code (bs be s e : Z) : bool :=
  ((bs <=? e) && (s <=? bs))
  || ((s <=? be) && (be <=? e))
  || ((bs <=? s) && (e <=? be)).

(** The whole filter of the overlap query. *)
Definition overlap_query (tid : string) (s e : Z) (b : booking) : bool :=
  String.eqb (b_turf_id b) tid
  && String.eqb (b_status b) "confirmed"
  && overlap_code (b_start_time b) (b_end_time b) s e.

(** [(end_time - start_time).total_seconds() / 3600], for datetimes [s]
    and [e] in microseconds: [total_seconds()] divides the microseconds
    by the int [10**6], then the float is divided by [3600.0]. *)
Definition duration_hours (s e : Z) : float :=
  PrimFloat.div (int_true_div (e - s) 1000000) 3600%float.

(** [turf['price_per_hour'] * duration_hours]: an int is converted with
    [float(...)] (which may raise [OverflowError]), a bool counts as [0.0]
    or [1.0], a float multiplies as it is; any other JSON value raises
    [TypeError]. *)
Definition price_times (p : jval) (h : float) : string + float :=
  match p with
  | JInt z =>
      match int_to_float z with
      | Some x => inr (PrimFloat.mul x h)
      | None => inl "OverflowError"%string
      end
  | JFloat x => inr (PrimFloat.mul x h)
  | JBool b => inr (PrimFloat.mul (if b then 1 else 0)%float h)
  | _ => inl "TypeError"%string
  end.

(** [update_one({'_id': o}, {'$set': {'status': 'cancelled'}})]: the first
    booking with that id. *)
Fixpoint cancel_first (o : oid) (bs : list booking) : list booking :=
  match bs with
  | [] => []
  | b :: bs' =>
      if oid_eqb (b_id b) o
      then mkBooking (b_id b) (b_user_id b) (b_turf_id b) (b_start_time b)
             (b_end_time b) "cancelled" (b_total_cost b) (b_created_at b)
             (b_notes b) :: bs'
      else b :: cancel_first o bs'
  end.

(** One [$set] of a turf field. *)
Definition set_turf_field (t : turf) (fv : string * jval) : turf :=
  let (f, v) := fv in
  let '(mkTurf i ow n l sz am pr av su ca de) := t in
  if String.eqb f "name" then mkTurf i ow v l sz am pr av su ca de
  else if String.eqb f "location" then mkTurf i ow n v sz am pr av su ca de
  else if String.eqb f "size" then mkTurf i ow n l v am pr av su ca de
  else if String.eqb f "amenities" then mkTurf i ow n l sz v pr av su ca de
  else if String.eqb f "price_per_hour" then mkTurf i ow n l sz am v av su ca de
  else if String.eqb f "availability" then mkTurf i ow n l sz am pr v su ca de
  else if String.eqb f "surface_type" then mkTurf i ow n l sz am pr av v ca de
  else if String.eqb f "capacity" then mkTurf i ow n l sz am pr av su v de
  else if String.eqb f "description" then mkTurf i ow n l sz am pr av su ca v
  else t.

(** [update_one({'_id': o}, {'$set': upd})]: the first turf with that id. *)
Fixpoint update_first (o : oid) (upd : list (string * jval)) (ts : list turf)
  : list turf :=
  match ts with
  | [] => []
  | t :: ts' =>
      if oid_eqb (t_id t) o then fold_left set_turf_field upd t :: ts'
      else t :: update_first o upd ts'
  end.

(** [delete_one({'_id': o})]: the first turf with that id. *)
Fixpoint delete_first (o : oid) (ts : list turf) : list turf :=
  match ts with
  | [] => []
  | t :: ts' => if oid_eqb (t_id t) o then ts' else t :: delete_first o ts'
  end.

(** The fields [update_turf] copies from the body, in its order. *)
Definition turf_fields : list string :=
  ["name"; "location"; "size"; "amenities"; "price_per_hour"; "availability";
    "surface_type"; "capacity"; "description"]%string.

(** The clock readings of one [POST /user/book] request: each of the two
    [parser.parse] calls reads the local date for the parts its string
    leaves out, and the insert reads [datetime.utcnow()]; all in
    microseconds since the epoch, UTC. *)
Record clocks : Type := mkClocks {
  clk_start : Z;
  clk_end : Z;
  clk_insert : Z
}.

(** ** The views *)

Section Views.

(** [dateutil.parser.parse(s)] when the clock reads [now]: the parts of
    the date that [s] leaves out come from the local date at [now];
    [None] when it raises. *)
Variable parse : Z -> string -> option datetime.

(** The server's verdict on a document written with the request values
    [vs]: depending on its version it refuses field names that start with
    ['$'] or hold ['.'], and it refuses documents over 16 MB. *)
Variable accept : list jval -> bool.

(** [parser.parse(v)] on a JSON value: a non-string raises as well, which
    the bare [except] catches. *)
Definition parse_time (now : Z) (v : jval) : option datetime :=
  match v with JStr s => parse now s | _ => None end.

(** The document [book_turf] inserts once its checks pass (times already
    in milliseconds); [created_at] is read from the clock at the insert. *)
Record pending : Type := mkPending {
  p_user_id : string;
  p_turf_id : string;
  p_start_time : Z;
  p_end_time : Z;
  p_total_cost : float;
  p_notes : jval
}.

(** [book_turf] up to and including the overlap query and the cost: either
    the response it returns early, or the document it goes on to insert. *)
Definition book_check (c : clocks) (cu : cur_user) (data : body) (s : st)
  : resp + pending :=
  if negb (String.eqb (fst cu) "user") then inl (RMsg 403 "Unauthorized") else
  let user_id := snd cu in
  let turf_id := dget data "turf_id" in
  let start_time := dget data "start_time" in
  let end_time := dget data "end_time" in
  let notes := dget_default data "notes" (JStr "") in
  if negb (truthy turf_id && truthy start_time && truthy end_time)
  then inl (RMsg 400 "Missing fields") else
  match parse_time (clk_start c) start_time, parse_time (clk_end c) end_time with
  | Some st0, Some en =>
      match dt_ge st0 en with
      | None => inl (RCrash "TypeError")
      | Some true => inl (RMsg 400 "End time must be after start time")
      | Some false =>
          match turf_id with
          | JStr tid =>
              match ObjectId tid with
              | None => inl (RCrash "InvalidId")
              | Some o =>
                  match find_turf_avail o (turfs s) with
                  | None => inl (RMsg 404 "Turf not found or unavailable")
                  | Some t =>
                      match to_ms st0, to_ms en with
                      | Some ms, Some me =>
                          if existsb (overlap_query tid ms me) (bookings s)
                          then inl (RMsg 409 "Time slot unavailable") else
                          match price_times (t_price_per_hour t)
                                  (duration_hours (dt_us st0) (dt_us en)) with
                          | inl e => inl (RCrash e)
                          | inr cost => inr (mkPending user_id tid ms me cost notes)
                          end
                      | _, _ => inl (RCrash "OverflowError")
                      end
                  end
              end
          | _ => inl (RCrash "TypeError")
          end
      end
  | _, _ => inl (RMsg 400 "Invalid date format")
  end.

(** The [insert_one] of [book_turf] and its 201 answer; [now] is the
    reading of [utcnow()], stored in milliseconds. *)
Definition book_commit (now : Z) (p : pending) (s : st) : resp * st :=
  match write_err accept [p_notes p] with
  | Some e => (RCrash e, s)
  | None =>
      let o := fresh_oid (next_oid s) in
      (RCreated "Booking created successfully" (oid_str o),
       mkSt (turfs s)
            (bookings s ++ [mkBooking o (p_user_id p) (p_turf_id p)
                              (p_start_time p) (p_end_time p) "confirmed"
                              (p_total_cost p) (now / 1000) (p_notes p)])
            (next_oid s + 1))
  end.

(** [POST /user/book]. *)
Definition book_turf (c : clocks) (cu : cur_user) (data : body) (s : st)
  : resp * st :=
  match book_check c cu data s with
  | inl r => (r, s)
  | inr p => book_commit (clk_insert c) p s
  end.

(** ** Concurrent requests to [POST /user/book]

    Each request runs [book_check] (its reads of [turfs] and [bookings])
    and later its [insert_one]; nothing serialises the two steps against
    other requests, so the scheduler may interleave them. *)

Inductive thread : Type :=
| TReady (c : clocks) (cu : cur_user) (data : body)
| TChecked (now : Z) (p : pending)
| TDone (r : resp).

(** One step of one request. *)
Definition step_thread (th : thread) (s : st) : thread * st :=
  match th with
  | TReady c cu d =>
      match book_check c cu d s with
      | inl r => (TDone r, s)
      | inr p => (TChecked (clk_insert c) p, s)
      end
  | TChecked now p => let (r, s') := book_commit now p s in (TDone r, s')
  | TDone r => (TDone r, s)
  end.

Fixpoint set_nth {A : Type} (n : nat) (x : A) (l : list A) : list A :=
  match n, l with
  | _, [] => []
  | O, _ :: l' => x :: l'
  | S n', y :: l' => y :: set_nth n' x l'
  end.

(** Run a schedule: each entry names the request that takes its next step. *)
Fixpoint run_sched (sched : list nat) (ths : list thread) (s : st)
  : list thread * st :=
  match sched with
  | [] => (ths, s)
  | i :: sched' =>
      match nth_error ths i with
      | None => run_sched sched' ths s
      | Some th =>
          let (th', s') := step_thread th s in
          run_sched sched' (set_nth i th' ths) s'
      end
  end.

(** [POST /owner/turf]. *)
Definition add_turf (cu : cur_user) (data : body) (s : st) : resp * st :=
  if negb (String.eqb (fst cu) "owner") then (RMsg 403 "Unauthorized", s) else
  let name := dget data "name" in
  let location := dget data "location" in
  let size := dget data "size" in
  let amenities := dget_default data "amenities" (JList []) in
  let price_per_hour := dget data "price_per_hour" in
  let availability := dget_default data "availability" (JBool true) in
  let surface_type := dget data "surface_type" in
  let capacity := dget data "capacity" in
  let description := dget_default data "description" (JStr "") in
  if negb (forallb truthy [name; location; size; price_per_hour; surface_type; capacity])
  then (RMsg 400 "Missing fields", s) else
  match write_err accept [name; location; size; amenities; price_per_hour;
                          availability; surface_type; capacity; description] with
  | Some e => (RCrash e, s)
  | None =>
      let o := fresh_oid (next_oid s) in
      (RCreated "Turf added successfully" (oid_str o),
       mkSt (turfs s ++ [mkTurf o (snd cu) name location size amenities price_per_hour
                           availability surface_type capacity description])
            (bookings s) (next_oid s + 1))
  end.

(** [PUT /owner/turf/<id>]. *)
Definition update_turf (cu : cur_user) (id : string) (data : body) (s : st)
  : resp * st :=
  if negb (String.eqb (fst cu) "owner") then (RMsg 403 "Unauthorized", s) else
  match ObjectId id with
  | None => (RCrash "InvalidId", s)
  | Some o =>
      match find_turf_owned o (snd cu) (turfs s) with
      | None => (RMsg 404 "Turf not found or unauthorized", s)
      | Some _ =>
          let update_data :=
            map (fun f => (f, dget data f)) (filter (fun f => dhas data f) turf_fields) in
          match update_data with
          | [] => (RMsg 400 "No fields to update", s)
          | _ =>
              match write_err accept (map snd update_data) with
              | Some e => (RCrash e, s)
              | None =>
                  (RMsg 200 "Turf updated successfully",
                   mkSt (update_first o update_data (turfs s)) (bookings s) (next_oid s))
              end
          end
      end
  end.

(** A sequence of [PUT /owner/turf/<id>] requests, run in order. *)
Definition run_updates (ups : list (cur_user * string * body)) (s : st) : st :=
  fold_left (fun s0 u => let '(cu, id, d) := u in snd (update_turf cu id d s0)) ups s.

End Views.

(** [GET /user/bookings]. *)
Definition get_user_bookings (cu : cur_user) (s : st) : resp :=
  if negb (String.eqb (fst cu) "user") then RMsg 403 "Unauthorized" else
  let bookings_list :=
    map dump (filter (fun b => String.eqb (b_user_id b) (snd cu)) (bookings s)) in
  match bookings_list with
  | [] => RMsg 404 "No bookings found"
  | _ => RList bookings_list
  end.

(** [DELETE /user/booking/<id>]. *)
Definition cancel_booking (cu : cur_user) (id : string) (s : st) : resp * st :=
  if negb (String.eqb (fst cu) "user") then (RMsg 403 "Unauthorized", s) else
  match ObjectId id with
  | None => (RCrash "InvalidId", s)
  | Some o =>
      match find (fun b => oid_eqb (b_id b) o && String.eqb (b_user_id b) (snd cu))
                 (bookings s) with
      | None => (RMsg 404 "Booking not found or unauthorized", s)
      | Some b =>
          if String.eqb (b_status b) "cancelled"
          then (RMsg 400 "Booking already cancelled", s)
          else (RMsg 200 "Booking cancelled successfully",
                mkSt (turfs s) (cancel_first o (bookings s)) (next_oid s))
      end
  end.

(** [DELETE /owner/turf/<id>]. *)
Definition delete_turf (cu : cur_user) (id : string) (s : st) : resp * st :=
  if negb (String.eqb (fst cu) "owner") then (RMsg 403 "Unauthorized", s) else
  match ObjectId id with
  | None => (RCrash "InvalidId", s)
  | Some o =>
      match find_turf_owned o (snd cu) (turfs s) with
      | None => (RMsg 404 "Turf not found or unauthorized", s)
      | Some _ =>
          if existsb (fun b => String.eqb (b_turf_id b) id
                               && String.eqb (b_status b) "confirmed") (bookings s)
          then (RMsg 400 "Cannot delete turf with active bookings", s)
          else (RMsg 200 "Turf deleted successfully",
                mkSt (delete_first o (turfs s)) (bookings s) (next_oid s))
      end
  end.

(** The fields [add_turf] requires, in its order. *)
Definition required_turf_fields (d : body) : list jval :=
  [dget d "name"; dget d "location"; dget d "size"; dget d "price_per_hour";
   dget d "surface_type"; dget d "capacity"]%string.

(** The values of the document [add_turf] writes for a body, in document
    order. *)
Definition add_turf_values (d : body) : list jval :=
  [dget d "name"; dget d "location"; dget d "size";
   dget_default d "amenities" (JList []); dget d "price_per_hour";
   dget_default d "availability" (JBool true); dget d "surface_type";
   dget d "capacity"; dget_default d "description" (JStr "")]%string.
(** ** The [token_required] decorator *)

(** [str.split(" ")]: cut at every single space, keeping empty pieces. *)
Fixpoint split_sp_aux (cs : list ascii) (cur : list ascii) : list (list ascii) :=
  match cs with
  | [] => [rev cur]
  | c :: cs' =>
      if Ascii.eqb c " "%char then rev cur :: split_sp_aux cs' []
      else split_sp_aux cs' (c :: cur)
  end.

Definition split_sp (s : string) : list string :=
  map string_of_list_ascii (split_sp_aux (list_ascii_of_string s) []).

(** What the decorator answers: its own 401, or the wrapped view's result. *)
Inductive gated (A : Type) : Type :=
| GUnauth (msg : string)
| GRun (a : A).
Arguments GUnauth {A} msg.
Arguments GRun {A} a.

(** [token_required(f)] on the [Authorization] header [hdr] ([None] when
    absent).  [decode] stands for [jwt.decode] with the server's key
    followed by the reads of [data['user_type']] and [data['user_id']]:
    [None] when any of them raises (bad signature, expired token, missing
    claim).  The call [f(current_user)] is outside the [try]. *)
Definition token_required {A : Type} (decode : string -> option cur_user)
  (hdr : option string) (f : cur_user -> A) : gated A :=
  match hdr with
  | None => GUnauth "Token is missing"
  | Some h =>
      if String.eqb h "" then GUnauth "Token is missing" else
      match nth_error (split_sp h) 1 with
      | None => GUnauth "Token is invalid"
      | Some t =>
          match decode t with
          | None => GUnauth "Token is invalid"
          | Some cu => GRun (f cu)
          end
      end
  end.

(** ** Turf listings *)

(** [turfs_schema.dump]: the schema's [id] is not a key of the stored
    document (which has [_id]), so the dump carries the other fields. *)
Record turf_dump : Type := mkTurfDump {
  td_name : jval;
  td_location : jval;
  td_size : jval;
  td_amenities : jval;
  td_price_per_hour : jval;
  td_owner_id : string;
  td_availability : jval;
  td_surface_type : jval;
  td_capacity : jval;
  td_description : jval
}.

Definition tdump (t : turf) : turf_dump :=
  mkTurfDump (t_name t) (t_location t) (t_size t) (t_amenities t)
    (t_price_per_hour t) (t_owner_id t) (t_availability t) (t_surface_type t)
    (t_capacity t) (t_description t).

Inductive turf_resp : Type :=
| TMsg (code : Z) (msg : string)
| TList (items : list turf_dump).

(** [GET /user/turfs] (no token). *)
Definition get_turfs (s : st) : turf_resp :=
  match map tdump (filter (fun t => matches_true (t_availability t)) (turfs s)) with
  | [] => TMsg 404 "No turfs available"
  | l => TList l
  end.

(** [GET /owner/turfs]. *)
Definition get_owner_turfs (cu : cur_user) (s : st) : turf_resp :=
  if negb (String.eqb (fst cu) "owner") then TMsg 403 "Unauthorized" else
  match map tdump (filter (fun t => String.eqb (t_owner_id t) (snd cu)) (turfs s)) with
  | [] => TMsg 404 "No turfs found"
  | l => TList l
  end.

(** [GET /owner/turf/<id>/bookings]. *)
Definition get_turf_bookings (cu : cur_user) (id : string) (s : st) : resp :=
  if negb (String.eqb (fst cu) "owner") then RMsg 403 "Unauthorized" else
  match ObjectId id with
  | None => RCrash "InvalidId"
  | Some o =>
      match find_turf_owned o (snd cu) (turfs s) with
      | None => RMsg 404 "Turf not found or unauthorized"
      | Some _ =>
          match map dump (filter (fun b => String.eqb (b_turf_id b) id) (bookings s)) with
          | [] => RMsg 404 "No bookings found"
          | l => RList l
          end
      end
  end.

(** ** Accounts: the [users] and [turf_owners] collections

    The request fields are stored as the JSON values sent; the password
    is stored as its hash. *)

Record user : Type := mkUser {
  u_id : oid;
  u_username : jval;
  u_email : jval;
  u_password : string;
  u_full_name : jval;
  u_phone : jval;
  u_created_at : Z
}.

Record owner : Type := mkOwner {
  o_id : oid;
  o_username : jval;
  o_email : jval;
  o_password : string;
  o_name : jval;
  o_phone : jval;
  o_business_name : jval;
  o_address : jval;
  o_created_at : Z
}.

Record accounts : Type := mkAccounts {
  users : list user;
  owners : list owner;
  acc_next_oid : Z
}.

(** What [user_login] and [owner_login] answer: a message with its
    status, the 200 answer with the payload of the signed token
    ([user_type], [user_id], and [exp]: 24 hours after the clock reading
    [now], in whole seconds as PyJWT encodes a datetime), or an exception
    that escapes the view. *)
Inductive login_resp : Type :=
| LMsg (code : Z) (msg : string)
| LOk (user_type : string) (user_id : string) (exp : Z)
| LCrash (exn : string).

Section Accounts.

(** [find_one({'email': v})] and [find_one({'username': v})]: the filter
    [{field: v}] as the stored values of that field it matches, or [None]
    when the filter cannot be run (pymongo cannot encode [v], or the
    server refuses an operator in it, e.g. [{'$foo': 1}]).  A JSON object
    [v] is a query operator or an embedded document, as Mongo reads it. *)
Variable mquery : jval -> option (jval -> bool).

(** [generate_password_hash(v)]: its salt is random, drawn here from the
    insert counter; [None] when it raises (a password that is not a
    string).  [check_password_hash(h, v)]: [None] when it raises. *)
Variable gen_hash : Z -> jval -> option string.
Variable check_hash : string -> jval -> option bool.

(** The server's verdict on a written document, as in the views. *)
Variable accept : list jval -> bool.

(** [POST /user/register]; [now] is the reading of [utcnow()]. *)
Definition user_register (now : Z) (data : body) (a : accounts) : resp * accounts :=
  let username := dget data "username" in
  let email := dget data "email" in
  let password := dget data "password" in
  let full_name := dget data "full_name" in
  let phone := dget data "phone" in
  if negb (forallb truthy [username; email; password; full_name; phone])
  then (RMsg 400 "Missing fields", a) else
  match mquery email with
  | None => (RCrash "OperationFailure", a)
  | Some fe =>
      if existsb (fun u => fe (u_email u)) (users a)
      then (RMsg 400 "Email already registered", a) else
      match mquery username with
      | None => (RCrash "OperationFailure", a)
      | Some fu =>
          if existsb (fun u => fu (u_username u)) (users a)
          then (RMsg 400 "Username already taken", a) else
          match gen_hash (acc_next_oid a) password with
          | None => (RCrash "TypeError", a)
          | Some h =>
              match write_err accept [username; email; full_name; phone] with
              | Some e => (RCrash e, a)
              | None =>
                  let o := fresh_oid (acc_next_oid a) in
                  (RCreated "User created successfully" (oid_str o),
                   mkAccounts
                     (users a ++ [mkUser o username email h full_name phone (now / 1000)])
                     (owners a) (acc_next_oid a + 1))
              end
          end
      end
  end.

(** [POST /owner/register]. *)
Definition owner_register (now : Z) (data : body) (a : accounts) : resp * accounts :=
  let username := dget data "username" in
  let email := dget data "email" in
  let password := dget data "password" in
  let name := dget data "name" in
  let phone := dget data "phone" in
  let business_name := dget data "business_name" in
  let address := dget data "address" in
  if negb (forallb truthy [username; email; password; name; phone; business_name; address])
  then (RMsg 400 "Missing fields", a) else
  match mquery email with
  | None => (RCrash "OperationFailure", a)
  | Some fe =>
      if existsb (fun u => fe (o_email u)) (owners a)
      then (RMsg 400 "Email already registered", a) else
      match mquery username with
      | None => (RCrash "OperationFailure", a)
      | Some fu =>
          if existsb (fun u => fu (o_username u)) (owners a)
          then (RMsg 400 "Username already taken", a) else
          match gen_hash (acc_next_oid a) password with
          | None => (RCrash "TypeError", a)
          | Some h =>
              match write_err accept [username; email; name; phone; business_name;
                                      address] with
              | Some e => (RCrash e, a)
              | None =>
                  let o := fresh_oid (acc_next_oid a) in
                  (RCreated "Turf owner created successfully" (oid_str o),
                   mkAccounts (users a)
                     (owners a ++ [mkOwner o username email h name phone business_name
                                     address (now / 1000)])
                     (acc_next_oid a + 1))
              end
          end
      end
  end.

(** [POST /user/login]; [now] is the reading of [utcnow()]. *)
Definition user_login (now : Z) (data : body) (a : accounts) : login_resp :=
  let email := dget data "email" in
  let password := dget data "password" in
  if negb (truthy email) || negb (truthy password) then LMsg 400 "Missing fields" else
  match mquery email with
  | None => LCrash "OperationFailure"
  | Some fe =>
      match find (fun u => fe (u_email u)) (users a) with
      | None => LMsg 401 "Invalid credentials"
      | Some u =>
          match check_hash (u_password u) password with
          | None => LCrash "TypeError"
          | Some false => LMsg 401 "Invalid credentials"
          | Some true => LOk "user" (oid_str (u_id u)) (now / 1000000 + 86400)
          end
      end
  end.

(** [POST /owner/login]. *)
Definition owner_login (now : Z) (data : body) (a : accounts) : login_resp :=
  let email := dget data "email" in
  let password := dget data "password" in
  if negb (truthy email) || negb (truthy password) then LMsg 400 "Missing fields" else
  match mquery email with
  | None => LCrash "OperationFailure"
  | Some fe =>
      match find (fun u => fe (o_email u)) (owners a) with
      | None => LMsg 401 "Invalid credentials"
      | Some u =>
          match check_hash (o_password u) password with
          | None => LCrash "TypeError"
          | Some false => LMsg 401 "Invalid credentials"
          | Some true => LOk "owner" (oid_str (o_id u)) (now / 1000000 + 86400)
          end
      end
  end.

End Accounts.

(** ** Concrete inputs *)

Section ConcreteInputs.
Local Open Scope string_scope.

Definition digit (c : ascii) : option Z :=
  let n := Z.of_nat (nat_of_ascii c) in
  if ((48 <=? n) && (n <=? 57))%Z then Some (n - 48) else None.

(** A stand-in for [dateutil.parser.parse] on ["HH:MM"] strings, on a
    server whose local time is UTC: the naive datetime at that time on the
    day of [now].  Only such strings are fed to it below. *)
Definition parse_hhmm (now : Z) (s : string) : option datetime :=
  match list_ascii_of_string s with
  | [h1; h2; c; m1; m2] =>
      if Ascii.eqb c ":"%char then
        match digit h1, digit h2, digit m1, digit m2 with
        | Some a, Some b, Some x, Some y =>
            if ((10 * a + b <? 24) && (10 * x + y <? 60))%Z
            then Some (mkDatetime (now - now mod 86400000000
                                   + ((10 * a + b) * 60 + (10 * x + y)) * 60000000)
                                  false)
            else None
        | _, _, _, _ => None
        end
      else None
  | _ => None
  end.

(** A server that refuses field names starting with ['$'] or holding
    ['.'] anywhere in a written value (as servers before 5.0 do). *)
Fixpoint legacy_ok (v : jval) : bool :=
  match v with
  | JList l => forallb legacy_ok l
  | JObj kv =>
      (fix go (kv : list (string * jval)) : bool :=
         match kv with
         | [] => true
         | (k, x) :: kv' =>
             negb (String.prefix "$" k)
             && negb (existsb (fun c => Ascii.eqb c "."%char) (list_ascii_of_string k))
             && legacy_ok x && go kv'
         end) kv
  | _ => true
  end.

Definition accept_legacy (vs : list jval) : bool := forallb legacy_ok vs.

(** All clocks at the epoch. *)
Definition clk0 : clocks := mkClocks 0 0 0.

(** The turf with id [aaaaaaaaaaaaaaaaaaaaaaaa], owned by ["o1"], available,
    at 100 per hour. *)
Definition turf_a : oid := repeat 10 24.

Definition turf_lower : string := "aaaaaaaaaaaaaaaaaaaaaaaa".
Definition turf_upper : string := "AAAAAAAAAAAAAAAAAAAAAAAA".

Definition turfA : turf :=
  mkTurf turf_a "o1" (JStr "Arena") (JStr "Kochi") (JStr "5s") (JList [])
         (JInt 100) (JBool true) (JStr "grass") (JInt 10) (JStr "").

Definition s_turf : st := mkSt [turfA] [] 1.

Definition book_req (tid start en : string) : body :=
  [("turf_id"%string, JStr tid); ("start_time"%string, JStr start);
   ("end_time"%string, JStr en)].

(** A placeholder booking, for [nth] on booking lists. *)
Definition dummy_booking : booking :=
  mkBooking [] "" "" 0 0 "" 0%float 0 JNull.

(** The store after ["u1"] books [10:00-12:00] on [turf_lower]. *)
Definition s_booked : st :=
  snd (book_turf parse_hhmm accept_legacy clk0 ("user", "u1")
         (book_req turf_lower "10:00" "12:00") s_turf).

(** [s_booked] after ["u1"] cancels its booking. *)
Definition s_cancelled : st :=
  snd (cancel_booking ("user", "u1") "000000000000000000000001" s_booked).

(** [s_booked] after ["u2"] books [13:00-14:00] on the same turf: two
    confirmed bookings. *)
Definition s_two : st :=
  snd (book_turf parse_hhmm accept_legacy clk0 ("user", "u2")
         (book_req turf_lower "13:00" "14:00") s_booked).

(** A turf creation request whose price is negative. *)
Definition turf_req_negative : body :=
  [("name", JStr "Arena"); ("location", JStr "Kochi"); ("size", JStr "5s");
   ("price_per_hour", JInt (-10)); ("surface_type", JStr "grass");
   ("capacity", JInt 10)].

(** Mongo's equality test of a stored value against the string [e]: the
    stored string itself, or an array holding it. *)
Definition str_matcher (e : string) (x : jval) : bool :=
  match x with
  | JStr e' => String.eqb e' e
  | JList l => existsb (fun y => match y with
                                 | JStr e' => String.eqb e' e
                                 | _ => false end) l
  | _ => false
  end.

(** A stand-in for [find_one({field: v})] that runs string filters and
    refuses other values. *)
Definition mquery_str (v : jval) : option (jval -> bool) :=
  match v with
  | JStr e => Some (str_matcher e)
  | _ => None
  end.

(** A stand-in pair for [generate_password_hash] and
    [check_password_hash]: a tagged copy of a string password. *)
Definition hash_demo (n : Z) (v : jval) : option string :=
  match v with JStr p => Some ("pbkdf2$" ++ p) | _ => None end.

Definition check_demo (h : string) (v : jval) : option bool :=
  match v with JStr p => Some (String.eqb h ("pbkdf2$" ++ p)) | _ => None end.

Definition acc0 : accounts := mkAccounts [] [] 1.

Definition user_req : body :=
  [("username", JStr "ann"); ("email", JStr "ann@example.com"); ("password", JStr "pw1");
   ("full_name", JStr "Ann"); ("phone", JStr "555")].

Definition owner_req : body :=
  [("username", JStr "bob"); ("email", JStr "bob@example.com"); ("password", JStr "pw2");
   ("name", JStr "Bob"); ("phone", JStr "556"); ("business_name", JStr "Bob Turfs");
   ("address", JStr "Kochi")].

(** A login body. *)
Definition login_req (em pw : jval) : body := [("email", em); ("password", pw)].

(** A turf update request setting the price and the availability. *)
Definition update_req : body :=
  [("price_per_hour", JInt 120); ("availability", JBool false)].

End ConcreteInputs.

(** [status is 201]. *)
Definition is_created (r : resp) : bool :=
  match r with RCreated _ _ => true | _ => false end.

(** The half-open overlap test of the spec: [[s1,e1)] meets [[s2,e2)]. *)
Definition half_open_overlap (s1 e1 s2 e2 : Z) : Prop := s1 < e2 /\ e1 > s2.

(** Invariant I1, with bookings of one turf grouped by the turf their
    [turf_id] names ([ObjectId(turf_id)]). *)
Definition no_double_booking (s : st) : Prop :=
  forall b1 b2, In b1 (bookings s) -> In b2 (bookings s) ->
  b_id b1 <> b_id b2 ->
  b_status b1 = "confirmed"%string -> b_status b2 = "confirmed"%string ->
  ObjectId (b_turf_id b1) = ObjectId (b_turf_id b2) ->
  ~ half_open_overlap (b_start_time b1) (b_end_time b1)
                      (b_start_time b2) (b_end_time b2).

(** The document [update_one(..., {'$set': {'status': 'cancelled'}})]
    leaves behind. *)
Definition mark_cancelled (b : booking) : booking :=
  mkBooking (b_id b) (b_user_id b) (b_turf_id b) (b_start_time b)
    (b_end_time b) "cancelled" (b_total_cost b) (b_created_at b) (b_notes b).

(** I1 with bookings grouped by their stored [turf_id] string, the key the
    overlap query of [book_turf] uses. *)
Definition no_double_booking_str (s : st) : Prop :=
  forall b1 b2, In b1 (bookings s) -> In b2 (bookings s) ->
  b_id b1 <> b_id b2 ->
  b_status b1 = "confirmed"%string -> b_status b2 = "confirmed"%string ->
  b_turf_id b1 = b_turf_id b2 ->
  ~ half_open_overlap (b_start_time b1) (b_end_time b1)
                      (b_start_time b2) (b_end_time b2).

(** No stored booking ends before it starts (in milliseconds). *)
Definition valid_intervals (s : st) : Prop :=
  Forall (fun b => b_start_time b <= b_end_time b) (bookings s).

(** The value of one of the [turf_fields] in a stored turf document. *)
Definition turf_get (t : turf) (f : string) : jval :=
  if String.eqb f "name" then t_name t
  else if String.eqb f "location" then t_location t
  else if String.eqb f "size" then t_size t
  else if String.eqb f "amenities" then t_amenities t
  else if String.eqb f "price_per_hour" then t_price_per_hour t
  else if String.eqb f "availability" then t_availability t
  else if String.eqb f "surface_type" then t_surface_type t
  else if String.eqb f "capacity" then t_capacity t
  else if String.eqb f "description" then t_description t
  else JNull.



(** ** The overlap query *)

(** On intervals with start <= end, the three clauses of the [$or] make up
    the closed-interval test. *)
Lemma overlap_code_closed : forall bs be s e,
  bs <= be -> s <= e ->
  overlap_code bs be s e = (bs <=? e) && (s <=? be).
Proof.
  intros bs be s e Hb Hr. unfold overlap_code.
  destruct (bs <=? e) eqn:E1, (s <=? be) eqn:E2, (s <=? bs) eqn:E3,
           (be <=? e) eqn:E4, (bs <=? s) eqn:E5, (e <=? be) eqn:E6;
    rewrite ?Z.leb_le, ?Z.leb_gt in *; simpl; lia.
Qed.

(** Every half-open overlap is caught by the query's [$or]. *)
Lemma half_open_overlap_code : forall bs be s e,
  bs <= be -> s <= e -> half_open_overlap bs be s e ->
  overlap_code bs be s e = true.
Proof.
  intros bs be s e Hb Hr [H1 H2].
  rewrite overlap_code_closed by assumption.
  apply andb_true_intro; split; apply Z.leb_le; lia.
Qed.

(** ** Milliseconds *)

Lemma to_ms_val : forall d m, to_ms d = Some m -> m = dt_us d / 1000.
Proof.
  intros d m H. unfold to_ms in H.
  destruct (_ && _); [injection H as <-; reflexivity|discriminate].
Qed.

Lemma ms_le : forall x y, x <= y -> x / 1000 <= y / 1000.
Proof. intros x y H. apply Z.div_le_mono; lia. Qed.

(** Two encoded datetimes keep their order (not strictly: both may fall in
    the same millisecond). *)
Lemma to_ms_le : forall a e ma me,
  to_ms a = Some ma -> to_ms e = Some me -> dt_us a <= dt_us e -> ma <= me.
Proof.
  intros a e ma me Ha He H.
  rewrite (to_ms_val _ _ Ha), (to_ms_val _ _ He). apply ms_le. exact H.
Qed.

Section BookingProofs.

Variable parse : Z -> string -> option datetime.
Variable accept : list jval -> bool.

Lemma book_check_not_created : forall c cu d s r,
  book_check parse c cu d s = inl r -> is_created r = false.
Proof.
  intros c cu d s r H. unfold book_check in H.
  repeat match goal with
  | H : context [if ?c then _ else _] |- _ => destruct c
  | H : context [match ?x with _ => _ end] |- _ => destruct x
  end; inversion H; reflexivity.
Qed.

(** What [book_check] has established when it goes on to the insert. *)
Lemma book_check_pending : forall c cu d s p,
  book_check parse c cu d s = inr p ->
  fst cu = "user"%string /\ p_user_id p = snd cu /\
  dget d "turf_id" = JStr (p_turf_id p) /\
  p_notes p = dget_default d "notes" (JStr "") /\
  (exists a e,
     parse_time parse (clk_start c) (dget d "start_time") = Some a /\
     parse_time parse (clk_end c) (dget d "end_time") = Some e /\
     dt_aware a = dt_aware e /\ dt_us a < dt_us e /\
     to_ms a = Some (p_start_time p) /\ to_ms e = Some (p_end_time p) /\
     (exists o t, ObjectId (p_turf_id p) = Some o /\
        find_turf_avail o (turfs s) = Some t /\
        price_times (t_price_per_hour t) (duration_hours (dt_us a) (dt_us e))
          = inr (p_total_cost p))) /\
  existsb (overlap_query (p_turf_id p) (p_start_time p) (p_end_time p))
          (bookings s) = false.
Proof.
  intros c cu d s p H. unfold book_check in H.
  destruct (String.eqb (fst cu) "user") eqn:Eu; [|discriminate].
  destruct (truthy (dget d "turf_id") && truthy (dget d "start_time")
            && truthy (dget d "end_time")); [|discriminate].
  destruct (parse_time parse (clk_start c) (dget d "start_time")) as [a|] eqn:Ea;
    [|discriminate].
  destruct (parse_time parse (clk_end c) (dget d "end_time")) as [e|] eqn:Ee;
    [|discriminate].
  destruct (dt_ge a e) as [[|]|] eqn:Eae; try discriminate.
  destruct (dget d "turf_id") as [| | | |tid| |] eqn:Et; try discriminate.
  destruct (ObjectId tid) as [o|] eqn:Eo; [|discriminate].
  destruct (find_turf_avail o (turfs s)) as [t|] eqn:Eft; [|discriminate].
  destruct (to_ms a) as [ma|] eqn:Ema; [|discriminate].
  destruct (to_ms e) as [me|] eqn:Eme; [|discriminate].
  destruct (existsb (overlap_query tid ma me) (bookings s)) eqn:Ex; [discriminate|].
  destruct (price_times (t_price_per_hour t) (duration_hours (dt_us a) (dt_us e)))
    as [|cost] eqn:Ec; [discriminate|].
  inversion H; subst p; cbn [p_user_id p_turf_id p_start_time p_end_time
                               p_total_cost p_notes].
  apply String.eqb_eq in Eu.
  unfold dt_ge in Eae.
  destruct (Bool.eqb (dt_aware a) (dt_aware e)) eqn:Eaw; [|discriminate].
  injection Eae as Eae. apply Z.leb_gt in Eae. apply Bool.eqb_prop in Eaw.
  repeat split; auto.
  exists a, e. repeat split; auto.
  exists o, t. auto.
Qed.

(** A 201 from [book_turf]: [book_check] passed, the notes could be
    written, and exactly one confirmed booking was appended. *)
Lemma book_turf_created : forall c cu d s r s',
  book_turf parse accept c cu d s = (r, s') -> is_created r = true ->
  exists p, book_check parse c cu d s = inr p
    /\ write_err accept [p_notes p] = None
    /\ r = RCreated "Booking created successfully" (oid_str (fresh_oid (next_oid s)))
    /\ s' = mkSt (turfs s)
              (bookings s ++ [mkBooking (fresh_oid (next_oid s)) (p_user_id p)
                                (p_turf_id p) (p_start_time p) (p_end_time p)
                                "confirmed" (p_total_cost p) (clk_insert c / 1000)
                                (p_notes p)])%list
              (next_oid s + 1).
Proof.
  intros c cu d s r s' H Hc. unfold book_turf in H.
  destruct (book_check parse c cu d s) as [r0|p] eqn:E.
  - inversion H; subst. rewrite (book_check_not_created _ _ _ _ _ E) in Hc.
    discriminate.
  - exists p. split; [reflexivity|]. unfold book_commit in H.
    destruct (write_err accept [p_notes p]) as [e|] eqn:Ew.
    + injection H as <- _. discriminate.
    + injection H as <- <-. auto.
Qed.

(** Whatever [book_turf] answers other than 201 leaves the store as it
    was. *)
Lemma book_turf_not_created : forall c cu d s,
  is_created (fst (book_turf parse accept c cu d s)) = false ->
  snd (book_turf parse accept c cu d s) = s.
Proof.
  intros c cu d s. unfold book_turf.
  destruct (book_check parse c cu d s) as [r|p]; [reflexivity|].
  unfold book_commit. destruct (write_err accept [p_notes p]); [reflexivity|].
  discriminate.
Qed.

(** Claim C1, as the code has it.  The overlap query and the insert are two
    separate store operations: run one after the other, two requests naming
    the same [turf_id] string with overlapping intervals do not both
    succeed, whatever their clock readings (run concurrently they may: see
    [C1_concurrent_double_booking]). *)
Theorem C1_sequential_no_double_booking :
  forall c1 c2 cu1 cu2 d1 d2 s tid a1 e1 a2 e2,
  dget d1 "turf_id" = JStr tid -> dget d2 "turf_id" = JStr tid ->
  parse_time parse (clk_start c1) (dget d1 "start_time") = Some a1 ->
  parse_time parse (clk_end c1) (dget d1 "end_time") = Some e1 ->
  parse_time parse (clk_start c2) (dget d2 "start_time") = Some a2 ->
  parse_time parse (clk_end c2) (dget d2 "end_time") = Some e2 ->
  half_open_overlap (dt_us a1) (dt_us e1) (dt_us a2) (dt_us e2) ->
  let (r1, s1) := book_turf parse accept c1 cu1 d1 s in
  let (r2, s2) := book_turf parse accept c2 cu2 d2 s1 in
  ~ (is_created r1 = true /\ is_created r2 = true).
Proof.
  intros c1 c2 cu1 cu2 d1 d2 s tid a1 e1 a2 e2 Ht1 Ht2 Ha1 He1 Ha2 He2 Hov.
  destruct (book_turf parse accept c1 cu1 d1 s) as [r1 s1] eqn:B1.
  destruct (book_turf parse accept c2 cu2 d2 s1) as [r2 s2] eqn:B2.
  intros [C1 C2].
  destruct (book_turf_created _ _ _ _ _ _ B1 C1) as (p1 & P1 & _ & _ & M1).
  destruct (book_turf_created _ _ _ _ _ _ B2 C2) as (p2 & P2 & _ & _ & _).
  destruct (book_check_pending _ _ _ _ _ P1)
    as (_ & _ & T1 & _ & (a1' & e1' & S1 & E1 & _ & L1 & Ma1 & Me1 & _) & _).
  destruct (book_check_pending _ _ _ _ _ P2)
    as (_ & _ & T2 & _ & (a2' & e2' & S2 & E2 & _ & L2 & Ma2 & Me2 & _) & X2).
  rewrite Ht1 in T1; rewrite Ht2 in T2. injection T1 as T1; injection T2 as T2.
  rewrite Ha1 in S1; rewrite He1 in E1; rewrite Ha2 in S2; rewrite He2 in E2.
  injection S1 as <-; injection E1 as <-; injection S2 as <-; injection E2 as <-.
  subst s1. cbn [bookings] in X2. rewrite existsb_app in X2.
  apply orb_false_elim in X2. destruct X2 as [_ X2].
  cbn [existsb] in X2. rewrite orb_false_r in X2.
  unfold overlap_query in X2. cbn [b_turf_id b_status b_start_time b_end_time] in X2.
  rewrite <- T1, <- T2, !String.eqb_refl in X2. cbn [andb] in X2.
  destruct Hov as [Hov1 Hov2].
  rewrite overlap_code_closed in X2.
  - apply andb_false_iff in X2. destruct X2 as [X2|X2]; apply Z.leb_gt in X2.
    + pose proof (to_ms_le _ _ _ _ Ma1 Me2 ltac:(lia)). lia.
    + pose proof (to_ms_le _ _ _ _ Ma2 Me1 ltac:(lia)). lia.
  - exact (to_ms_le _ _ _ _ Ma1 Me1 ltac:(lia)).
  - exact (to_ms_le _ _ _ _ Ma2 Me2 ltac:(lia)).
Qed.

End BookingProofs.

Lemma update_turf_bookings : forall accept cu id d s,
  bookings (snd (update_turf accept cu id d s)) = bookings s.
Proof.
  intros accept cu id d s. unfold update_turf.
  destruct (negb (String.eqb (fst cu) "owner")); [reflexivity|].
  destruct (ObjectId id) as [o|]; [|reflexivity].
  destruct (find_turf_owned o (snd cu) (turfs s)); [|reflexivity].
  destruct (map (fun f => (f, dget d f)) (filter (fun f => dhas d f) turf_fields));
    [reflexivity|].
  destruct (write_err _ _); reflexivity.
Qed.

Lemma run_updates_bookings : forall accept ups s,
  bookings (run_updates accept ups s) = bookings s.
Proof.
  intros accept. induction ups as [|[[cu id] d] ups IH]; intros s; [reflexivity|].
  simpl. rewrite IH. apply update_turf_bookings.
Qed.

Section CostProof.

Variable parse : Z -> string -> option datetime.
Variable accept : list jval -> bool.

(** Claim C4: a successful booking appends one booking whose [start_time]
    and [end_time] are the parsed times in milliseconds and whose
    [total_cost] is the turf's [price_per_hour], read from the store at
    that moment, times the duration in hours, in Python float arithmetic;
    later [update_turf] requests (a new price included) leave every stored
    booking as it is. *)
Theorem C4_cost_fixed_at_creation : forall c cu d s r s',
  book_turf parse accept c cu d s = (r, s') -> is_created r = true ->
  exists a e o t b,
    bookings s' = (bookings s ++ [b])%list
    /\ parse_time parse (clk_start c) (dget d "start_time") = Some a
    /\ parse_time parse (clk_end c) (dget d "end_time") = Some e
    /\ to_ms a = Some (b_start_time b) /\ to_ms e = Some (b_end_time b)
    /\ ObjectId (b_turf_id b) = Some o
    /\ find_turf_avail o (turfs s) = Some t
    /\ price_times (t_price_per_hour t) (duration_hours (dt_us a) (dt_us e))
         = inr (b_total_cost b)
    /\ (forall acc ups, bookings (run_updates acc ups s') = bookings s').
Proof.
  intros c cu d s r s' H Hc.
  destruct (book_turf_created parse accept _ _ _ _ _ _ H Hc) as (p & P & _ & _ & ->).
  destruct (book_check_pending parse _ _ _ _ _ P)
    as (_ & _ & _ & _ & (a & e & Ea & Ee & _ & _ & Ma & Me & (o & t & Eo & Et & Ec)) & _).
  exists a, e, o, t, (mkBooking (fresh_oid (next_oid s)) (p_user_id p)
                        (p_turf_id p) (p_start_time p) (p_end_time p)
                        "confirmed" (p_total_cost p) (clk_insert c / 1000) (p_notes p)).
  cbn [bookings b_start_time b_end_time b_turf_id b_total_cost].
  repeat split; auto.
  intros acc ups. apply run_updates_bookings.
Qed.

End CostProof.
(** ** Cancellation and listing *)

Section CancelListing.
Local Open Scope string_scope.

Lemma find_none_all : forall {A : Type} (f : A -> bool) l,
  (forall x, In x l -> f x = false) -> find f l = None.
Proof.
  intros A f l H. induction l as [|x l IH]; [reflexivity|].
  simpl. rewrite (H x (or_introl eq_refl)). apply IH.
  intros y Hy. apply H. right. exact Hy.
Qed.

Lemma filter_nil_all : forall {A : Type} (f : A -> bool) l,
  (forall x, In x l -> f x = false) -> filter f l = [].
Proof.
  intros A f l H. induction l as [|x l IH]; [reflexivity|].
  simpl. rewrite (H x (or_introl eq_refl)). apply IH.
  intros y Hy. apply H. right. exact Hy.
Qed.

Lemma oid_eqb_eq : forall a b, oid_eqb a b = true <-> a = b.
Proof.
  intros a b. unfold oid_eqb.
  destruct (list_eq_dec Z.eq_dec a b); split; congruence.
Qed.

Lemma NoDup_map_inj : forall {A B : Type} (f : A -> B) l x y,
  NoDup (map f l) -> In x l -> In y l -> f x = f y -> x = y.
Proof.
  intros A B f l x y Hnd. induction l as [|z l IH]; intros Hx Hy Hf; [destruct Hx|].
  simpl in Hnd. inversion Hnd as [|? ? Hnotin Hnd']; subst.
  destruct Hx as [<-|Hx], Hy as [<-|Hy]; auto.
  - exfalso. apply Hnotin. rewrite Hf. apply in_map. exact Hy.
  - exfalso. apply Hnotin. rewrite <- Hf. apply in_map. exact Hx.
Qed.

(** Claim C6: for a customer [uid], cancelling an id that names no booking
    and cancelling an id whose booking belongs to other customers give the
    same answer, 404 ["Booking not found or unauthorized"], and change
    nothing.  (Ids that are not well formed raise instead: claim C8.) *)
Theorem C6_cancel_opacity : forall s uid id1 id2 o1 o2,
  ObjectId id1 = Some o1 ->
  (forall b, In b (bookings s) -> b_id b <> o1) ->
  ObjectId id2 = Some o2 ->
  (exists b, In b (bookings s) /\ b_id b = o2) ->
  (forall b, In b (bookings s) -> b_id b = o2 -> b_user_id b <> uid) ->
  cancel_booking ("user", uid) id1 s = cancel_booking ("user", uid) id2 s
  /\ cancel_booking ("user", uid) id1 s
       = (RMsg 404 "Booking not found or unauthorized", s).
Proof.
  intros s uid id1 id2 o1 o2 E1 H1 E2 _ H2.
  assert (C1 : cancel_booking ("user", uid) id1 s
               = (RMsg 404 "Booking not found or unauthorized", s)).
  { unfold cancel_booking. simpl. rewrite E1, find_none_all; [reflexivity|].
    intros b Hb. simpl.
    destruct (oid_eqb (b_id b) o1) eqn:Eq; [|reflexivity].
    apply oid_eqb_eq in Eq. exfalso. exact (H1 b Hb Eq). }
  assert (C2 : cancel_booking ("user", uid) id2 s
               = (RMsg 404 "Booking not found or unauthorized", s)).
  { unfold cancel_booking. simpl. rewrite E2, find_none_all; [reflexivity|].
    intros b Hb. simpl.
    destruct (oid_eqb (b_id b) o2) eqn:Eq; [|reflexivity].
    apply oid_eqb_eq in Eq. simpl. apply String.eqb_neq. exact (H2 b Hb Eq). }
  rewrite C1, C2. split; reflexivity.
Qed.

(** Claim C7: when ids are unique, the owner cancelling a booking that is
    already cancelled gets 400 ["Booking already cancelled"] and the store
    is returned unchanged. *)
Theorem C7_cancel_already_cancelled : forall s uid id b,
  NoDup (map b_id (bookings s)) ->
  In b (bookings s) -> b_user_id b = uid ->
  ObjectId id = Some (b_id b) -> b_status b = "cancelled"%string ->
  cancel_booking ("user", uid) id s = (RMsg 400 "Booking already cancelled", s).
Proof.
  intros s uid id b Hnd Hin Hu Eid Hst.
  unfold cancel_booking. simpl. rewrite Eid.
  set (f := fun b0 => oid_eqb (b_id b0) (b_id b) && String.eqb (b_user_id b0) uid).
  destruct (find f (bookings s)) as [b'|] eqn:Ef.
  - apply find_some in Ef. destruct Ef as [Hin' Hf].
    unfold f in Hf. apply andb_true_iff in Hf. destruct Hf as [Hid _].
    apply oid_eqb_eq in Hid.
    rewrite (NoDup_map_inj b_id (bookings s) b' b Hnd Hin' Hin Hid), Hst.
    reflexivity.
  - exfalso. apply find_none with (x := b) in Ef; [|exact Hin].
    unfold f in Ef. rewrite (proj2 (oid_eqb_eq _ _) eq_refl), Hu, String.eqb_refl in Ef.
    discriminate.
Qed.

(** Claim C9, as the code has it: a customer's listing is the dump of
    their bookings, of every status, in store order; when they have none
    the answer is 404 ["No bookings found"], not an empty list. *)
Theorem C9_user_bookings : forall s uid,
  let mine := filter (fun b => String.eqb (b_user_id b) uid) (bookings s) in
  (forall b, In b mine <-> In b (bookings s) /\ b_user_id b = uid)
  /\ ((forall b, In b (bookings s) -> b_user_id b <> uid) ->
      get_user_bookings ("user", uid) s = RMsg 404 "No bookings found")
  /\ ((exists b, In b (bookings s) /\ b_user_id b = uid) ->
      get_user_bookings ("user", uid) s = RList (map dump mine)).
Proof.
  intros s uid mine. split; [|split].
  - intros b. unfold mine. rewrite filter_In, String.eqb_eq. reflexivity.
  - intros H. unfold get_user_bookings. simpl.
    replace (filter (fun b => String.eqb (b_user_id b) uid) (bookings s)) with (@nil booking);
      [reflexivity|].
    symmetry. apply filter_nil_all.
    intros b Hb. apply String.eqb_neq. exact (H b Hb).
  - intros [b [Hb Hu]]. unfold get_user_bookings. simpl. fold mine.
    assert (Hm : In b mine) by (unfold mine; apply filter_In; rewrite String.eqb_eq; auto).
    destruct mine as [|b0 l]; [destruct Hm|]. reflexivity.
Qed.

(** Claim C10, as the code has it: [add_turf] answers 400 ["Missing
    fields"] and stores nothing when one of [name], [location], [size],
    [price_per_hour], [surface_type], [capacity] is missing or falsy (a
    price of 0 among them); otherwise it stores the turf with the values
    as sent, whatever their sign.  A number passes exactly when it is not
    0. *)
(** Claim C10, as the code has it: [add_turf] answers 400 ["Missing
    fields"] and stores nothing when one of [name], [location], [size],
    [price_per_hour], [surface_type], [capacity] is missing or falsy (a
    price of 0 or 0.0 among them); otherwise it writes the turf with the
    values as sent, whatever their sign, unless the write itself fails
    (pymongo cannot encode a value, or the server refuses the document),
    which escapes the view and stores nothing.  An integer passes exactly
    when it is not 0. *)
Theorem C10_add_turf_validation : forall accept owner d s,
  (forallb truthy (required_turf_fields d) = false ->
   add_turf accept ("owner", owner) d s = (RMsg 400 "Missing fields", s))
  /\ (forallb truthy (required_turf_fields d) = true ->
      write_err accept (add_turf_values d) = None ->
      add_turf accept ("owner", owner) d s
        = (RCreated "Turf added successfully" (oid_str (fresh_oid (next_oid s))),
           mkSt (turfs s ++ [mkTurf (fresh_oid (next_oid s)) owner
                               (dget d "name") (dget d "location") (dget d "size")
                               (dget_default d "amenities" (JList []))
                               (dget d "price_per_hour")
                               (dget_default d "availability" (JBool true))
                               (dget d "surface_type") (dget d "capacity")
                               (dget_default d "description" (JStr ""))])%list
                (bookings s) (next_oid s + 1)))
  /\ (forall e, forallb truthy (required_turf_fields d) = true ->
      write_err accept (add_turf_values d) = Some e ->
      add_turf accept ("owner", owner) d s = (RCrash e, s))
  /\ (forall z, truthy (JInt z) = true <-> z <> 0%Z)
  /\ truthy (JFloat 0%float) = false /\ truthy (JFloat (-0)%float) = false.
Proof.
  intros accept owner d s. split; [|split; [|split; [|split]]].
  - intros H. unfold add_turf, required_turf_fields in *. simpl in H |- *.
    rewrite H. reflexivity.
  - intros H Hw. unfold add_turf, required_turf_fields, add_turf_values in *.
    simpl in H |- *. rewrite H. simpl. rewrite Hw. reflexivity.
  - intros e H Hw. unfold add_turf, required_turf_fields, add_turf_values in *.
    simpl in H |- *. rewrite H. simpl. rewrite Hw. reflexivity.
  - intros z. simpl. rewrite negb_true_iff, Z.eqb_neq. reflexivity.
  - split; reflexivity.
Qed.

End CancelListing.

(** ** Facts about I1 used to evaluate it on concrete stores *)

Lemma no_double_booking_nil : forall s, bookings s = [] -> no_double_booking s.
Proof.
  intros s E b1 b2 H1. rewrite E in H1. destruct H1.
Qed.

Lemma no_double_booking_single : forall s b,
  bookings s = [b] -> no_double_booking s.
Proof.
  intros s b E b1 b2 H1 H2 Hne. rewrite E in H1, H2.
  destruct H1 as [<-|[]]; destruct H2 as [<-|[]]. contradiction.
Qed.

(** Two confirmed bookings at positions [i] and [j], with different ids,
    naming the same turf and overlapping, break I1. *)
Lemma double_booking_at : forall s i j,
  (i < List.length (bookings s))%nat -> (j < List.length (bookings s))%nat ->
  let b1 := nth i (bookings s) dummy_booking in
  let b2 := nth j (bookings s) dummy_booking in
  b_id b1 <> b_id b2 ->
  b_status b1 = "confirmed"%string -> b_status b2 = "confirmed"%string ->
  ObjectId (b_turf_id b1) = ObjectId (b_turf_id b2) ->
  half_open_overlap (b_start_time b1) (b_end_time b1)
                    (b_start_time b2) (b_end_time b2) ->
  ~ no_double_booking s.
Proof.
  intros s i j Hi Hj b1 b2 Hne S1 S2 Ho Hov H.
  apply (H b1 b2); auto; apply nth_In; assumption.
Qed.

(** Adjacent intervals, [[bs, be]] then [[be, e]], satisfy the second
    clause of the [$or]. *)
Lemma overlap_code_touching : forall bs be e,
  be <= e -> overlap_code bs be be e = true.
Proof.
  intros bs be e H. unfold overlap_code.
  rewrite (proj2 (Z.leb_le be be) (Z.le_refl be)), (proj2 (Z.leb_le be e) H).
  simpl. rewrite orb_true_r. reflexivity.
Qed.

Ltac refute_I1 i j :=
  apply (double_booking_at _ i j); vm_compute;
  first [ reflexivity | lia | discriminate | split; reflexivity ].

(** ** Concrete runs *)

Section ConcreteRuns.
Local Open Scope string_scope.

(** Counterexample to claim C1: two overlapping requests on the same turf,
    [10:00-12:00] and [11:00-13:00], both pass the overlap query before
    either inserts; both get 201 and the store ends with two overlapping
    confirmed bookings of the turf. *)
Lemma C1_concurrent_double_booking :
  let r := run_sched parse_hhmm accept_legacy [0; 1; 0; 1]%nat
             [TReady clk0 ("user", "u1") (book_req turf_lower "10:00" "12:00");
              TReady clk0 ("user", "u2") (book_req turf_lower "11:00" "13:00")]
             s_turf in
  fst r = [TDone (RCreated "Booking created successfully" "000000000000000000000001");
           TDone (RCreated "Booking created successfully" "000000000000000000000002")]
  /\ ~ no_double_booking (snd r).
Proof.
  split.
  - vm_compute. reflexivity.
  - refute_I1 0%nat 1%nat.
Qed.

(** Witness of [C1_sequential_no_double_booking]: [10:00-12:00] then
    [11:00-13:00] on the same turf, one after the other. *)
Lemma C1_sequential_witness :
  let (r1, s1) := book_turf parse_hhmm accept_legacy clk0 ("user", "u1")
                    (book_req turf_lower "10:00" "12:00") s_turf in
  let (r2, s2) := book_turf parse_hhmm accept_legacy clk0 ("user", "u2")
                    (book_req turf_lower "11:00" "13:00") s1 in
  ~ (is_created r1 = true /\ is_created r2 = true).
Proof.
  exact (C1_sequential_no_double_booking parse_hhmm accept_legacy clk0 clk0
           ("user", "u1") ("user", "u2")
           (book_req turf_lower "10:00" "12:00") (book_req turf_lower "11:00" "13:00")
           s_turf turf_lower
           (mkDatetime 36000000000 false) (mkDatetime 43200000000 false)
           (mkDatetime 39600000000 false) (mkDatetime 46800000000 false)
           eq_refl eq_refl eq_refl eq_refl eq_refl eq_refl
           ltac:(unfold half_open_overlap; simpl; lia)).
Defined.

(** Claim C2 (code defect): the query's bounds are inclusive, so a booking
    ending at 12:00 blocks a request starting at 12:00 on the same turf,
    although the two half-open slots do not overlap. *)
Theorem C2_adjacent_booking_rejected :
  fst (book_turf parse_hhmm accept_legacy clk0 ("user", "u1")
         (book_req turf_lower "10:00" "12:00") s_turf)
    = RCreated "Booking created successfully" "000000000000000000000001"
  /\ fst (book_turf parse_hhmm accept_legacy clk0 ("user", "u2")
            (book_req turf_lower "12:00" "13:00") s_booked)
       = RMsg 409 "Time slot unavailable"
  /\ ~ half_open_overlap 36000000 43200000 43200000 46800000.
Proof.
  split; [vm_compute; reflexivity|].
  split; [vm_compute; reflexivity|].
  unfold half_open_overlap. lia.
Qed.

(** Claim C3 (code defect): from a store satisfying I1, one [book_turf]
    naming the turf as [AAAAAAAAAAAAAAAAAAAAAAAA] finds the turf (ObjectId
    reads hex in either case) but queries bookings by that exact string,
    misses the confirmed [aaaaaaaaaaaaaaaaaaaaaaaa] booking of the same
    slot, and inserts an overlapping confirmed booking. *)
Theorem C3_case_alias_breaks_I1 :
  no_double_booking s_booked
  /\ fst (book_turf parse_hhmm accept_legacy clk0 ("user", "u2")
            (book_req turf_upper "10:00" "12:00") s_booked)
       = RCreated "Booking created successfully" "000000000000000000000002"
  /\ ~ no_double_booking
         (snd (book_turf parse_hhmm accept_legacy clk0 ("user", "u2")
                 (book_req turf_upper "10:00" "12:00") s_booked)).
Proof.
  split.
  { apply (no_double_booking_single _ (nth 0 (bookings s_booked) dummy_booking)).
    vm_compute. reflexivity. }
  split; [vm_compute; reflexivity|].
  refute_I1 0%nat 1%nat.
Qed.

(** Claim C5 (code defect): the turf has a confirmed booking, yet its
    owner deletes it by naming it [AAAAAAAAAAAAAAAAAAAAAAAA]: the active
    booking query compares that exact string with the stored
    [aaaaaaaaaaaaaaaaaaaaaaaa].  Named in lower case, the delete is
    refused. *)
Theorem C5_delete_case_alias :
  (exists b, In b (bookings s_booked) /\ b_status b = "confirmed"
             /\ ObjectId (b_turf_id b) = ObjectId turf_upper)
  /\ delete_turf ("owner", "o1") turf_upper s_booked
       = (RMsg 200 "Turf deleted successfully",
          mkSt [] (bookings s_booked) (next_oid s_booked))
  /\ fst (delete_turf ("owner", "o1") turf_lower s_booked)
       = RMsg 400 "Cannot delete turf with active bookings".
Proof.
  split.
  { exists (nth 0 (bookings s_booked) dummy_booking). split.
    - apply nth_In. vm_compute. lia.
    - vm_compute. split; reflexivity. }
  split; vm_compute; reflexivity.
Qed.

(** Claim C8 (code defect): a malformed id reaches [ObjectId(...)] outside
    any [try], which raises [InvalidId] out of the view (a 500), in
    [cancel_booking], [book_turf] and [delete_turf]; the sibling date
    parsing is wrapped in [try]/[except]: a start time that is not a
    string makes [parser.parse] raise, which is answered 400 whatever the
    parser and the clocks. *)
Theorem C8_malformed_id_raises :
  cancel_booking ("user", "u1") "not-an-id" s_booked = (RCrash "InvalidId", s_booked)
  /\ fst (book_turf parse_hhmm accept_legacy clk0 ("user", "u1")
            (book_req "not-an-id" "10:00" "12:00") s_turf) = RCrash "InvalidId"
  /\ delete_turf ("owner", "o1") "not-an-id" s_turf = (RCrash "InvalidId", s_turf)
  /\ (forall parse accept c,
        fst (book_turf parse accept c ("user", "u1")
               [("turf_id", JStr turf_lower); ("start_time", JInt 5);
                ("end_time", JStr "12:00")] s_turf)
          = RMsg 400 "Invalid date format").
Proof.
  split; [vm_compute; reflexivity|].
  split; [vm_compute; reflexivity|].
  split; [vm_compute; reflexivity|].
  intros parse accept c. reflexivity.
Qed.

(** Witness of [C4_cost_fixed_at_creation]: the booking [10:00-12:00] on a
    turf at 100 per hour. *)
Lemma C4_cost_witness :
  exists a e o t b,
    bookings s_booked = (bookings s_turf ++ [b])%list
    /\ parse_time parse_hhmm (clk_start clk0) (JStr "10:00") = Some a
    /\ parse_time parse_hhmm (clk_end clk0) (JStr "12:00") = Some e
    /\ to_ms a = Some (b_start_time b) /\ to_ms e = Some (b_end_time b)
    /\ ObjectId (b_turf_id b) = Some o
    /\ find_turf_avail o (turfs s_turf) = Some t
    /\ price_times (t_price_per_hour t) (duration_hours (dt_us a) (dt_us e))
         = inr (b_total_cost b)
    /\ (forall acc ups, bookings (run_updates acc ups s_booked) = bookings s_booked).
Proof.
  exact (C4_cost_fixed_at_creation parse_hhmm accept_legacy clk0 ("user", "u1")
           (book_req turf_lower "10:00" "12:00") s_turf _ s_booked
           (surjective_pairing _) eq_refl).
Defined.
(** Witness of [C6_cancel_opacity]: in [s_booked], ["u2"] cancels the
    unused id [...09] and ["u1"]'s booking [...01]. *)
Lemma C6_cancel_opacity_witness :
  cancel_booking ("user", "u2") "000000000000000000000009" s_booked
    = cancel_booking ("user", "u2") "000000000000000000000001" s_booked
  /\ cancel_booking ("user", "u2") "000000000000000000000009" s_booked
       = (RMsg 404 "Booking not found or unauthorized", s_booked).
Proof.
  assert (E : bookings s_booked = [nth 0 (bookings s_booked) dummy_booking])
    by (vm_compute; reflexivity).
  apply (C6_cancel_opacity s_booked "u2" "000000000000000000000009"
           "000000000000000000000001" (fresh_oid 9) (fresh_oid 1) eq_refl).
  - intros b Hb. rewrite E in Hb. destruct Hb as [<-|[]]. vm_compute. discriminate.
  - reflexivity.
  - exists (nth 0 (bookings s_booked) dummy_booking). rewrite E.
    split; [left; reflexivity|vm_compute; reflexivity].
  - intros b Hb _. rewrite E in Hb. destruct Hb as [<-|[]]. vm_compute. discriminate.
Defined.

(** Witness of [C7_cancel_already_cancelled]: ["u1"] cancels its booking a
    second time. *)
Lemma C7_cancel_witness :
  cancel_booking ("user", "u1") "000000000000000000000001" s_cancelled
    = (RMsg 400 "Booking already cancelled", s_cancelled).
Proof.
  assert (E : bookings s_cancelled = [nth 0 (bookings s_cancelled) dummy_booking])
    by (vm_compute; reflexivity).
  apply (C7_cancel_already_cancelled s_cancelled "u1" "000000000000000000000001"
           (nth 0 (bookings s_cancelled) dummy_booking)).
  - rewrite E. simpl. constructor; [intros []|constructor].
  - rewrite E. left. reflexivity.
  - vm_compute. reflexivity.
  - vm_compute. reflexivity.
  - vm_compute. reflexivity.
Defined.

(** Counterexample to claim C9: a customer with no bookings gets 404
    ["No bookings found"], not the empty sequence. *)
Lemma C9_no_bookings_404 :
  get_user_bookings ("user", "u9") s_booked = RMsg 404 "No bookings found"
  /\ get_user_bookings ("user", "u9") s_booked <> RList [].
Proof.
  split; vm_compute; [reflexivity|discriminate].
Qed.

(** Counterexample to claim C10: a turf priced at -10 per hour is stored. *)
Lemma C10_negative_price_stored :
  fst (add_turf accept_legacy ("owner", "o1") turf_req_negative s_turf)
    = RCreated "Turf added successfully" "000000000000000000000001"
  /\ exists t, In t (turfs (snd (add_turf accept_legacy ("owner", "o1")
                                  turf_req_negative s_turf)))
             /\ t_price_per_hour t = JInt (-10).
Proof.
  split; [vm_compute; reflexivity|].
  exists (nth 1 (turfs (snd (add_turf accept_legacy ("owner", "o1")
                               turf_req_negative s_turf))) turfA).
  split.
  - apply nth_In. vm_compute. lia.
  - vm_compute. reflexivity.
Qed.

End ConcreteRuns.
(** ** Further properties of the views *)

Section ExtraIds.
Local Open Scope string_scope.

Lemma string_length_of_list_ascii : forall l,
  String.length (string_of_list_ascii l) = List.length l.
Proof. induction l as [|c l IH]; simpl; auto. Qed.

Lemma list_ascii_of_string_append : forall s1 s2,
  list_ascii_of_string (s1 ++ s2) = (list_ascii_of_string s1 ++ list_ascii_of_string s2)%list.
Proof. induction s1 as [|c s1 IH]; intros s2; simpl; [reflexivity|]. rewrite IH. reflexivity. Qed.

Lemma hex_val_digit : forall v, 0 <= v < 16 -> hex_val (hex_digit v) = Some v.
Proof.
  intros v Hv.
  assert (v = 0 \/ v = 1 \/ v = 2 \/ v = 3 \/ v = 4 \/ v = 5 \/ v = 6 \/ v = 7 \/
          v = 8 \/ v = 9 \/ v = 10 \/ v = 11 \/ v = 12 \/ v = 13 \/ v = 14 \/ v = 15)
    as Hc by lia.
  repeat (destruct Hc as [->|Hc]; [reflexivity|]). subst. reflexivity.
Qed.

Lemma hex_decode_digits : forall o,
  Forall (fun v => 0 <= v < 16) o -> hex_decode (map hex_digit o) = Some o.
Proof.
  induction o as [|v o IH]; intros H; [reflexivity|].
  inversion H as [|? ? Hv Ho]; subst. simpl.
  rewrite hex_val_digit, IH by assumption. reflexivity.
Qed.

(** [ObjectId(str(o)) == o] for every ObjectId. *)
Lemma ObjectId_oid_str : forall o,
  List.length o = 24%nat -> Forall (fun v => 0 <= v < 16) o ->
  ObjectId (oid_str o) = Some o.
Proof.
  intros o Hl Hr. unfold ObjectId, oid_str.
  rewrite string_length_of_list_ascii, length_map, Hl. simpl.
  rewrite list_ascii_of_string_of_list_ascii. apply hex_decode_digits. exact Hr.
Qed.

Lemma nibbles_length : forall k n acc,
  List.length (nibbles k n acc) = (k + List.length acc)%nat.
Proof.
  induction k as [|k IH]; intros n acc; [reflexivity|].
  simpl. rewrite IH. simpl. lia.
Qed.

Lemma nibbles_range : forall k n acc,
  Forall (fun v => 0 <= v < 16) acc ->
  Forall (fun v => 0 <= v < 16) (nibbles k n acc).
Proof.
  induction k as [|k IH]; intros n acc H; [exact H|].
  simpl. apply IH. constructor; [|exact H].
  apply Z.mod_pos_bound. lia.
Qed.

(** Extra X1: the id string every create view answers with
    ([str(inserted_id)]) is read back by [ObjectId] as the id of the
    stored document. *)
Theorem X1_created_id_roundtrip : forall n,
  ObjectId (oid_str (fresh_oid n)) = Some (fresh_oid n).
Proof.
  intros n. apply ObjectId_oid_str.
  - unfold fresh_oid. rewrite nibbles_length. reflexivity.
  - apply nibbles_range. constructor.
Qed.

End ExtraIds.

Section ExtraGate.
Local Open Scope string_scope.

Lemma split_sp_aux_nospace : forall cs acc,
  ~ In " "%char cs -> split_sp_aux cs acc = [(rev acc ++ cs)%list].
Proof.
  induction cs as [|c cs IH]; intros acc H; simpl.
  - rewrite app_nil_r. reflexivity.
  - destruct (Ascii.eqb c " "%char) eqn:E.
    + apply Ascii.eqb_eq in E. subst. exfalso. apply H. left. reflexivity.
    + rewrite IH by (intros Hin; apply H; right; exact Hin).
      simpl. rewrite <- app_assoc. reflexivity.
Qed.

Lemma split_sp_aux_one_space : forall cs1 cs2 acc,
  ~ In " "%char cs1 ->
  split_sp_aux (cs1 ++ " "%char :: cs2) acc = (rev acc ++ cs1)%list :: split_sp_aux cs2 [].
Proof.
  induction cs1 as [|c cs1 IH]; intros cs2 acc H; simpl.
  - rewrite app_nil_r. reflexivity.
  - destruct (Ascii.eqb c " "%char) eqn:E.
    + apply Ascii.eqb_eq in E. subst. exfalso. apply H. left. reflexivity.
    + rewrite IH by (intros Hin; apply H; right; exact Hin).
      simpl. rewrite <- app_assoc. reflexivity.
Qed.

(** Extra X2: [token_required] answers 401 ["Token is missing"] without a
    header or with an empty one, 401 ["Token is invalid"] for a header with
    no space whatever its content, and for a header [w ++ " " ++ t] (the
    scheme word [w] is not checked) runs the view on the identity decoded
    from [t], or answers ["Token is invalid"] when [t] does not decode. *)
Theorem X2_token_required_header : forall {A : Type} decode (f : cur_user -> A),
  token_required decode None f = GUnauth "Token is missing"
  /\ token_required decode (Some "") f = GUnauth "Token is missing"
  /\ (forall h, h <> ""%string -> ~ In " "%char (list_ascii_of_string h) ->
        token_required decode (Some h) f = GUnauth "Token is invalid")
  /\ (forall w t, ~ In " "%char (list_ascii_of_string w) ->
        ~ In " "%char (list_ascii_of_string t) ->
        token_required decode (Some (w ++ " " ++ t)) f
          = match decode t with
            | Some cu => GRun (f cu)
            | None => GUnauth "Token is invalid"
            end).
Proof.
  intros A decode f. split; [reflexivity|]. split; [reflexivity|]. split.
  - intros h Hne Hsp. unfold token_required.
    apply String.eqb_neq in Hne. rewrite Hne.
    unfold split_sp. rewrite split_sp_aux_nospace by exact Hsp. reflexivity.
  - intros w t Hw Ht. unfold token_required.
    destruct (String.eqb (w ++ " " ++ t) "") eqn:E.
    { apply String.eqb_eq in E. destruct w; discriminate. }
    unfold split_sp. rewrite list_ascii_of_string_append. simpl.
    rewrite split_sp_aux_one_space by exact Hw.
    rewrite split_sp_aux_nospace by exact Ht. simpl.
    rewrite !string_of_list_ascii_of_string. reflexivity.
Qed.

End ExtraGate.

Section ExtraBooking.
Local Open Scope string_scope.

Lemma fresh_oid_parse : forall n,
  ObjectId (oid_str (fresh_oid n)) = Some (fresh_oid n).
Proof.
  intros n. apply ObjectId_oid_str.
  - unfold fresh_oid. rewrite nibbles_length. reflexivity.
  - apply nibbles_range. constructor.
Qed.

(** Extra X3: every customer view ([book_turf], [get_user_bookings],
    [cancel_booking]) answers 403 to a token whose [user_type] is not
    ["user"], and every owner view ([add_turf], [update_turf],
    [delete_turf], [get_owner_turfs], [get_turf_bookings]) answers 403 to
    one whose [user_type] is not ["owner"]; the store is left as it was. *)
Theorem X3_role_gate : forall parse accept c cu d id s,
  (fst cu <> "user" ->
     book_turf parse accept c cu d s = (RMsg 403 "Unauthorized", s)
     /\ get_user_bookings cu s = RMsg 403 "Unauthorized"
     /\ cancel_booking cu id s = (RMsg 403 "Unauthorized", s))
  /\ (fst cu <> "owner" ->
     add_turf accept cu d s = (RMsg 403 "Unauthorized", s)
     /\ update_turf accept cu id d s = (RMsg 403 "Unauthorized", s)
     /\ delete_turf cu id s = (RMsg 403 "Unauthorized", s)
     /\ get_owner_turfs cu s = TMsg 403 "Unauthorized"
     /\ get_turf_bookings cu id s = RMsg 403 "Unauthorized").
Proof.
  intros parse accept c cu d id s. split; intros H; apply String.eqb_neq in H.
  - unfold book_turf, book_check, get_user_bookings, cancel_booking. rewrite H.
    repeat split.
  - unfold add_turf, update_turf, delete_turf, get_owner_turfs, get_turf_bookings.
    rewrite H. repeat split.
Qed.

Lemma map_cancel_notin : forall o bs,
  (forall x, In x bs -> b_id x <> o) ->
  map (fun x => if oid_eqb (b_id x) o then mark_cancelled x else x) bs = bs.
Proof.
  intros o bs H. induction bs as [|x bs IH]; [reflexivity|]. simpl.
  destruct (oid_eqb (b_id x) o) eqn:E.
  - apply oid_eqb_eq in E. exfalso. exact (H x (or_introl eq_refl) E).
  - rewrite IH; [reflexivity|]. intros y Hy. apply H. right. exact Hy.
Qed.

(** With unique ids, [update_one] on the first match marks every booking
    with that id. *)
Lemma cancel_first_map : forall o bs,
  NoDup (map b_id bs) ->
  cancel_first o bs = map (fun x => if oid_eqb (b_id x) o then mark_cancelled x else x) bs.
Proof.
  intros o bs Hnd. induction bs as [|x bs IH]; [reflexivity|].
  simpl in Hnd. inversion Hnd as [|? ? Hnotin Hnd']; subst. simpl.
  destruct (oid_eqb (b_id x) o) eqn:E.
  - apply oid_eqb_eq in E. subst o. rewrite map_cancel_notin; [reflexivity|].
    intros y Hy Heq. apply Hnotin. rewrite <- Heq. apply in_map. exact Hy.
  - rewrite IH by exact Hnd'. reflexivity.
Qed.

(** Extra X4: with unique booking ids, the owner cancelling a booking that
    is not cancelled gets 200; that booking, and no other, becomes
    [cancelled]; cancelling it again answers 400 ["Booking already
    cancelled"] and changes nothing. *)
Theorem X4_cancel_success : forall s uid id b,
  NoDup (map b_id (bookings s)) -> In b (bookings s) -> b_user_id b = uid ->
  ObjectId id = Some (b_id b) -> b_status b <> "cancelled" ->
  let s' := mkSt (turfs s)
              (map (fun x => if oid_eqb (b_id x) (b_id b) then mark_cancelled x else x)
                   (bookings s))
              (next_oid s) in
  cancel_booking ("user", uid) id s = (RMsg 200 "Booking cancelled successfully", s')
  /\ cancel_booking ("user", uid) id s' = (RMsg 400 "Booking already cancelled", s').
Proof.
  intros s uid id b Hnd Hin Hu Eid Hst s'.
  set (f := fun b0 => oid_eqb (b_id b0) (b_id b) && String.eqb (b_user_id b0) uid).
  assert (Hfb : f b = true).
  { unfold f. rewrite (proj2 (oid_eqb_eq _ _) eq_refl), Hu, String.eqb_refl. reflexivity. }
  split.
  - unfold cancel_booking. simpl. rewrite Eid. fold f.
    destruct (find f (bookings s)) as [b'|] eqn:Ef.
    + apply find_some in Ef. destruct Ef as [Hin' Hf].
      unfold f in Hf. apply andb_true_iff in Hf. destruct Hf as [Hid _].
      apply oid_eqb_eq in Hid.
      rewrite (NoDup_map_inj b_id (bookings s) b' b Hnd Hin' Hin Hid).
      apply String.eqb_neq in Hst. rewrite Hst.
      rewrite cancel_first_map by exact Hnd. reflexivity.
    + exfalso. apply find_none with (x := b) in Ef; [|exact Hin]. congruence.
  - unfold cancel_booking. simpl. rewrite Eid. fold f.
    destruct (find f (map (fun x => if oid_eqb (b_id x) (b_id b) then mark_cancelled x else x)
                          (bookings s))) as [b'|] eqn:Ef.
    + apply find_some in Ef. destruct Ef as [Hin' Hf].
      unfold f in Hf. apply andb_true_iff in Hf. destruct Hf as [Hid _].
      apply in_map_iff in Hin'. destruct Hin' as [x [Ex _]].
      destruct (oid_eqb (b_id x) (b_id b)) eqn:Ex'.
      * subst b'. reflexivity.
      * subst b'. congruence.
    + exfalso. apply find_none with (x := mark_cancelled b) in Ef.
      * unfold f, mark_cancelled in Ef. simpl in Ef.
        rewrite (proj2 (oid_eqb_eq _ _) eq_refl), Hu, String.eqb_refl in Ef. discriminate.
      * simpl. apply in_map_iff. exists b. split; [|exact Hin].
        rewrite (proj2 (oid_eqb_eq _ _) eq_refl). reflexivity.
Qed.

Lemma find_app_none : forall {A : Type} (f : A -> bool) l1 l2,
  (forall x, In x l1 -> f x = false) -> find f (l1 ++ l2)%list = find f l2.
Proof.
  intros A f l1 l2 H. induction l1 as [|x l1 IH]; [reflexivity|].
  simpl. rewrite (H x (or_introl eq_refl)). apply IH.
  intros y Hy. apply H. right. exact Hy.
Qed.

Lemma cancel_first_app_notin : forall o l1 l2,
  (forall x, In x l1 -> b_id x <> o) ->
  cancel_first o (l1 ++ l2)%list = (l1 ++ cancel_first o l2)%list.
Proof.
  intros o l1 l2 H. induction l1 as [|x l1 IH]; [reflexivity|].
  simpl. destruct (oid_eqb (b_id x) o) eqn:E.
  - apply oid_eqb_eq in E. exfalso. exact (H x (or_introl eq_refl) E).
  - rewrite IH; [reflexivity|]. intros y Hy. apply H. right. exact Hy.
Qed.

(** Extra X5: the id string [book_turf] answers with, sent back by the same
    customer to [cancel_booking], cancels exactly the booking just made
    (when the new id is not already taken by a stored booking). *)
Theorem X5_book_then_cancel : forall parse accept c cu d s m i s',
  book_turf parse accept c cu d s = (RCreated m i, s') ->
  (forall b, In b (bookings s) -> b_id b <> fresh_oid (next_oid s)) ->
  exists b,
    bookings s' = (bookings s ++ [b])%list /\ b_status b = "confirmed"
    /\ cancel_booking cu i s'
       = (RMsg 200 "Booking cancelled successfully",
          mkSt (turfs s) (bookings s ++ [mark_cancelled b])%list (next_oid s + 1)).
Proof.
  intros parse accept c cu d s m i s' H Hfresh.
  destruct (book_turf_created parse accept _ _ _ _ _ _ H eq_refl)
    as (p & P & _ & Hr & Hs).
  destruct (book_check_pending parse _ _ _ _ _ P) as (Hu & Hpu & _).
  injection Hr as Hm Hi. subst i s'.
  eexists. split; [reflexivity|]. split; [reflexivity|].
  destruct cu as [ut uid]. simpl in Hu, Hpu. subst ut.
  unfold cancel_booking. cbn [fst snd]. rewrite String.eqb_refl. cbn [negb].
  rewrite fresh_oid_parse. cbn [bookings turfs next_oid].
  rewrite find_app_none.
  2:{ intros x Hx. destruct (oid_eqb (b_id x) (fresh_oid (next_oid s))) eqn:E; [|reflexivity].
      apply oid_eqb_eq in E. exfalso. exact (Hfresh x Hx E). }
  cbn [find b_id b_user_id b_status].
  rewrite (proj2 (oid_eqb_eq _ _) eq_refl), Hpu, String.eqb_refl. cbn [andb].
  change (String.eqb "confirmed" "cancelled") with false. cbn iota.
  cbn [bookings turfs next_oid].
  rewrite cancel_first_app_notin by exact Hfresh. cbn [cancel_first b_id].
  rewrite (proj2 (oid_eqb_eq _ _) eq_refl). reflexivity.
Qed.

End ExtraBooking.
Section ExtraInvariants.
Local Open Scope string_scope.

Lemma cancel_first_confirmed : forall o bs x,
  In x (cancel_first o bs) -> b_status x = "confirmed" -> In x bs.
Proof.
  intros o bs x. induction bs as [|y bs IH]; simpl; [tauto|].
  destruct (oid_eqb (b_id y) o).
  - intros [<-|Hx] Hs; [discriminate|right; exact Hx].
  - intros [<-|Hx] Hs; [left; reflexivity|right; apply IH; assumption].
Qed.

(** I1 only looks at the confirmed bookings. *)
Lemma no_double_booking_confirmed_sub : forall s s',
  (forall x, In x (bookings s') -> b_status x = "confirmed" -> In x (bookings s)) ->
  no_double_booking s -> no_double_booking s'.
Proof.
  intros s s' Hsub H b1 b2 H1 H2 Hne S1 S2 Ho.
  apply H; auto.
Qed.

Lemma cancel_booking_confirmed : forall cu id s x,
  In x (bookings (snd (cancel_booking cu id s))) -> b_status x = "confirmed" ->
  In x (bookings s).
Proof.
  intros cu id s x. unfold cancel_booking.
  destruct (negb (String.eqb (fst cu) "user")); [auto|].
  destruct (ObjectId id) as [o|]; [|auto].
  destruct (find _ (bookings s)) as [b|]; [|auto].
  destruct (String.eqb (b_status b) "cancelled"); [auto|].
  apply cancel_first_confirmed.
Qed.

Lemma add_turf_bookings : forall accept cu d s,
  bookings (snd (add_turf accept cu d s)) = bookings s.
Proof.
  intros accept cu d s. unfold add_turf.
  destruct (negb (String.eqb (fst cu) "owner")); [reflexivity|].
  destruct (negb (forallb truthy _)); [reflexivity|].
  destruct (write_err _ _); reflexivity.
Qed.

Lemma delete_turf_bookings : forall cu id s, bookings (snd (delete_turf cu id s)) = bookings s.
Proof.
  intros cu id s. unfold delete_turf.
  destruct (negb (String.eqb (fst cu) "owner")); [reflexivity|].
  destruct (ObjectId id); [|reflexivity].
  destruct (find_turf_owned _ _ _); [|reflexivity].
  destruct (existsb _ _); reflexivity.
Qed.

(** Extra X6: I1 (turfs identified by [ObjectId(turf_id)]) survives every
    [cancel_booking], [add_turf], [update_turf] and [delete_turf] request:
    none of them adds a confirmed booking or moves one. *)
Theorem X6_I1_other_views : forall accept s,
  no_double_booking s ->
  (forall cu id, no_double_booking (snd (cancel_booking cu id s)))
  /\ (forall cu d, no_double_booking (snd (add_turf accept cu d s)))
  /\ (forall cu id d, no_double_booking (snd (update_turf accept cu id d s)))
  /\ (forall cu id, no_double_booking (snd (delete_turf cu id s))).
Proof.
  intros accept s H. split; [|split; [|split]].
  - intros cu id. apply (no_double_booking_confirmed_sub s); [|exact H].
    apply cancel_booking_confirmed.
  - intros cu d. apply (no_double_booking_confirmed_sub s); [|exact H].
    intros x Hx _. rewrite add_turf_bookings in Hx. exact Hx.
  - intros cu id d. apply (no_double_booking_confirmed_sub s); [|exact H].
    intros x Hx _. rewrite update_turf_bookings in Hx. exact Hx.
  - intros cu id. apply (no_double_booking_confirmed_sub s); [|exact H].
    intros x Hx _. rewrite delete_turf_bookings in Hx. exact Hx.
Qed.
Lemma half_open_overlap_sym : forall s1 e1 s2 e2,
  half_open_overlap s1 e1 s2 e2 -> half_open_overlap s2 e2 s1 e1.
Proof. unfold half_open_overlap. intros. lia. Qed.

(** Extra X7: keyed by the stored [turf_id] string, [book_turf] keeps I1
    and keeps every stored interval ordered (start <= end in milliseconds:
    two datetimes in the same millisecond are stored equal): the overlap
    query sees all confirmed bookings stored under the same string, and
    its closed test covers the half-open one. *)
Theorem X7_book_turf_keeps_I1_by_string : forall parse accept c cu d s,
  valid_intervals s -> no_double_booking_str s ->
  valid_intervals (snd (book_turf parse accept c cu d s))
  /\ no_double_booking_str (snd (book_turf parse accept c cu d s)).
Proof.
  intros parse accept c cu d s Hv Hi. unfold book_turf.
  destruct (book_check parse c cu d s) as [r|p] eqn:P; [split; assumption|].
  destruct (book_check_pending parse _ _ _ _ _ P)
    as (_ & _ & _ & _ & (a & e & _ & _ & _ & Hlt & Ma & Me & _) & Hx).
  pose proof (to_ms_le _ _ _ _ Ma Me ltac:(lia)) as Hle.
  assert (Hno : forall b, In b (bookings s) -> b_turf_id b = p_turf_id p ->
                 b_status b = "confirmed" ->
                 ~ half_open_overlap (b_start_time b) (b_end_time b)
                                     (p_start_time p) (p_end_time p)).
  { intros b Hb Ht Hs Hov.
    assert (Hq : overlap_query (p_turf_id p) (p_start_time p) (p_end_time p) b = true).
    { unfold overlap_query. rewrite Ht, Hs, !String.eqb_refl. simpl.
      apply half_open_overlap_code; [|exact Hle|exact Hov].
      unfold valid_intervals in Hv. rewrite Forall_forall in Hv.
      exact (Hv b Hb). }
    assert (Hex : existsb (overlap_query (p_turf_id p) (p_start_time p) (p_end_time p))
                          (bookings s) = true).
    { apply existsb_exists. exists b. auto. }
    congruence. }
  unfold book_commit. destruct (write_err accept [p_notes p]); [split; assumption|].
  cbn [snd bookings]. split.
  - unfold valid_intervals. apply Forall_app. split; [exact Hv|].
    constructor; [exact Hle|constructor].
  - intros b1 b2 H1 H2 Hne S1 S2 Ht.
    apply in_app_or in H1, H2.
    destruct H1 as [H1|[<-|[]]], H2 as [H2|[<-|[]]].
    + exact (Hi b1 b2 H1 H2 Hne S1 S2 Ht).
    + apply (Hno b1 H1 Ht S1).
    + intros Hov. apply (Hno b2 H2 (eq_sym Ht) S2). apply half_open_overlap_sym. exact Hov.
    + contradiction.
Qed.

(** Extra X8: what a [book_turf] request does to the store: either it
    answers with an error and changes nothing, or it answers 201 with the
    id of exactly one new booking appended to [bookings], confirmed, owned
    by the caller (a customer), whose times are the request's parsed times
    (start strictly before end) stored in whole milliseconds (so start <=
    end), created at the insert's clock reading in milliseconds, on a
    stored turf whose [availability] matches [True] (the boolean [true],
    or an array holding it). *)
Theorem X8_book_turf_effect : forall parse accept c cu d s,
  let (r, s') := book_turf parse accept c cu d s in
  (is_created r = false /\ s' = s)
  \/ (exists b t a e,
        s' = mkSt (turfs s) (bookings s ++ [b])%list (next_oid s + 1)
        /\ r = RCreated "Booking created successfully" (oid_str (b_id b))
        /\ b_id b = fresh_oid (next_oid s)
        /\ b_status b = "confirmed"
        /\ fst cu = "user" /\ b_user_id b = snd cu
        /\ parse_time parse (clk_start c) (dget d "start_time") = Some a
        /\ parse_time parse (clk_end c) (dget d "end_time") = Some e
        /\ dt_us a < dt_us e
        /\ to_ms a = Some (b_start_time b) /\ to_ms e = Some (b_end_time b)
        /\ b_start_time b <= b_end_time b
        /\ b_created_at b = clk_insert c / 1000
        /\ In t (turfs s) /\ ObjectId (b_turf_id b) = Some (t_id t)
        /\ matches_true (t_availability t) = true).
Proof.
  intros parse accept c cu d s. unfold book_turf.
  destruct (book_check parse c cu d s) as [r|p] eqn:P.
  { left. split; [exact (book_check_not_created parse _ _ _ _ _ P)|reflexivity]. }
  unfold book_commit. destruct (write_err accept [p_notes p]) as [err|].
  { left. split; reflexivity. }
  right.
  destruct (book_check_pending parse _ _ _ _ _ P)
    as (Hu & Hpu & _ & _ & (a & e & Ea & Ee & _ & Hlt & Ma & Me & (o & t & Eo & Et & _)) & _).
  unfold find_turf_avail in Et. apply find_some in Et. destruct Et as [Hin Ht].
  apply andb_true_iff in Ht. destruct Ht as [Hid Hav].
  apply oid_eqb_eq in Hid.
  eexists _, t, a, e.
  split; [reflexivity|]. split; [reflexivity|]. split; [reflexivity|].
  split; [reflexivity|]. split; [exact Hu|]. split; [exact Hpu|].
  split; [exact Ea|]. split; [exact Ee|]. split; [exact Hlt|].
  split; [exact Ma|]. split; [exact Me|].
  split; [exact (to_ms_le _ _ _ _ Ma Me ltac:(lia))|].
  split; [reflexivity|]. split; [exact Hin|].
  split; [cbn [b_turf_id]; rewrite Eo, Hid; reflexivity|].
  exact Hav.
Qed.

End ExtraInvariants.

Section ExtraWitnesses.
Local Open Scope string_scope.

Lemma s_booked_one :
  bookings s_booked = [nth 0 (bookings s_booked) dummy_booking].
Proof. vm_compute. reflexivity. Qed.

Lemma s_booked_I1_str : no_double_booking_str s_booked.
Proof.
  intros b1 b2 H1 H2 Hne. rewrite s_booked_one in H1, H2.
  destruct H1 as [<-|[]], H2 as [<-|[]]. contradiction.
Qed.

Lemma s_booked_valid : valid_intervals s_booked.
Proof.
  unfold valid_intervals. rewrite s_booked_one.
  constructor; [vm_compute; discriminate|constructor].
Qed.

Lemma s_two_two :
  bookings s_two = [nth 0 (bookings s_two) dummy_booking;
                    nth 1 (bookings s_two) dummy_booking].
Proof. vm_compute. reflexivity. Qed.

(** [s_two] holds two confirmed bookings of the same turf, [10:00-12:00]
    and [13:00-14:00], and satisfies I1. *)
Lemma s_two_confirmed :
  Forall (fun b => b_status b = "confirmed"
                   /\ ObjectId (b_turf_id b) = Some turf_a) (bookings s_two).
Proof.
  rewrite s_two_two. repeat constructor; vm_compute; reflexivity.
Qed.

Lemma s_two_I1 : no_double_booking s_two.
Proof.
  intros b1 b2 H1 H2 Hne _ _ _. rewrite s_two_two in H1, H2.
  destruct H1 as [<-|[<-|[]]], H2 as [<-|[<-|[]]];
    try contradiction; unfold half_open_overlap; vm_compute; intros [H H']; discriminate.
Qed.

(** Witness of [X4_cancel_success]: ["u1"] cancels its booking [...01] in
    [s_booked], then tries again. *)
Lemma X4_cancel_success_witness :
  cancel_booking ("user", "u1") "000000000000000000000001" s_booked
    = (RMsg 200 "Booking cancelled successfully", s_cancelled)
  /\ cancel_booking ("user", "u1") "000000000000000000000001" s_cancelled
       = (RMsg 400 "Booking already cancelled", s_cancelled).
Proof.
  assert (Hs : s_cancelled =
    mkSt (turfs s_booked)
      (map (fun x => if oid_eqb (b_id x) (b_id (nth 0 (bookings s_booked) dummy_booking))
                     then mark_cancelled x else x) (bookings s_booked))
      (next_oid s_booked)) by (vm_compute; reflexivity).
  rewrite Hs.
  apply (X4_cancel_success s_booked "u1" "000000000000000000000001"
           (nth 0 (bookings s_booked) dummy_booking)).
  - rewrite s_booked_one. simpl. constructor; [intros []|constructor].
  - rewrite s_booked_one. left. reflexivity.
  - vm_compute. reflexivity.
  - vm_compute. reflexivity.
  - vm_compute. discriminate.
Defined.

(** Witness of [X5_book_then_cancel]: ["u1"] books [10:00-12:00] on the
    empty store [s_turf] and cancels with the id it got back. *)
Lemma X5_book_then_cancel_witness :
  exists b,
    bookings s_booked = (bookings s_turf ++ [b])%list /\ b_status b = "confirmed"
    /\ cancel_booking ("user", "u1") "000000000000000000000001" s_booked
       = (RMsg 200 "Booking cancelled successfully",
          mkSt (turfs s_turf) (bookings s_turf ++ [mark_cancelled b])%list
               (next_oid s_turf + 1)).
Proof.
  apply (X5_book_then_cancel parse_hhmm accept_legacy clk0 ("user", "u1")
           (book_req turf_lower "10:00" "12:00") s_turf
           "Booking created successfully").
  - vm_compute. reflexivity.
  - intros b [].
Defined.

(** Witness of [X6_I1_other_views], from [s_two], which holds two
    confirmed bookings of one turf. *)
Lemma X6_I1_other_views_witness :
  List.length (bookings s_two) = 2%nat
  /\ Forall (fun b => b_status b = "confirmed"
                     /\ ObjectId (b_turf_id b) = Some turf_a) (bookings s_two)
  /\ (forall cu id, no_double_booking (snd (cancel_booking cu id s_two)))
  /\ (forall cu d, no_double_booking (snd (add_turf accept_legacy cu d s_two)))
  /\ (forall cu id d, no_double_booking (snd (update_turf accept_legacy cu id d s_two)))
  /\ (forall cu id, no_double_booking (snd (delete_turf cu id s_two))).
Proof.
  split; [vm_compute; reflexivity|]. split; [exact s_two_confirmed|].
  apply X6_I1_other_views. exact s_two_I1.
Defined.

(** Witness of [X7_book_turf_keeps_I1_by_string]: ["u2"] books
    [13:00-14:00] on the turf of [s_booked]. *)
Lemma X7_book_turf_keeps_I1_by_string_witness :
  valid_intervals (snd (book_turf parse_hhmm accept_legacy clk0 ("user", "u2")
                          (book_req turf_lower "13:00" "14:00") s_booked))
  /\ no_double_booking_str (snd (book_turf parse_hhmm accept_legacy clk0 ("user", "u2")
                          (book_req turf_lower "13:00" "14:00") s_booked)).
Proof.
  apply X7_book_turf_keeps_I1_by_string.
  - exact s_booked_valid.
  - exact s_booked_I1_str.
Defined.

End ExtraWitnesses.
Section ExtraTurfs.
Local Open Scope string_scope.

Ltac split_field_ifs :=
  repeat match goal with
  | |- context [if String.eqb ?f ?x then _ else _] =>
      let E := fresh "E" in destruct (String.eqb f x) eqn:E
  end.

Lemma set_turf_field_keeps : forall t fv,
  t_id (set_turf_field t fv) = t_id t /\ t_owner_id (set_turf_field t fv) = t_owner_id t.
Proof.
  intros [i ow n l sz am pr av su ca de] [f v]. unfold set_turf_field.
  split_field_ifs; split; reflexivity.
Qed.

Lemma fold_set_turf_field_keeps : forall upd t,
  t_id (fold_left set_turf_field upd t) = t_id t
  /\ t_owner_id (fold_left set_turf_field upd t) = t_owner_id t.
Proof.
  induction upd as [|fv upd IH]; intros t; [split; reflexivity|].
  simpl. destruct (IH (set_turf_field t fv)) as [H1 H2].
  destruct (set_turf_field_keeps t fv) as [K1 K2]. split; congruence.
Qed.

Lemma update_first_keeps : forall o upd ts,
  map t_id (update_first o upd ts) = map t_id ts
  /\ map t_owner_id (update_first o upd ts) = map t_owner_id ts.
Proof.
  induction ts as [|t ts [IH1 IH2]]; [split; reflexivity|]. simpl.
  destruct (oid_eqb (t_id t) o); simpl.
  - destruct (fold_set_turf_field_keeps upd t) as [K1 K2]. rewrite K1, K2. split; reflexivity.
  - rewrite IH1, IH2. split; reflexivity.
Qed.

(** Extra X9: whatever it answers, [update_turf] never changes a turf's
    [_id] or its [owner_id], nor the number of turfs: the [$set] only
    carries fields of [turf_fields]. *)
Theorem X9_update_turf_keeps_ids_owners : forall accept cu id d s,
  map t_id (turfs (snd (update_turf accept cu id d s))) = map t_id (turfs s)
  /\ map t_owner_id (turfs (snd (update_turf accept cu id d s))) = map t_owner_id (turfs s).
Proof.
  intros accept cu id d s. unfold update_turf.
  destruct (negb (String.eqb (fst cu) "owner")); [split; reflexivity|].
  destruct (ObjectId id) as [o|]; [|split; reflexivity].
  destruct (find_turf_owned o (snd cu) (turfs s)); [|split; reflexivity].
  destruct (map (fun f => (f, dget d f)) (filter (fun f => dhas d f) turf_fields)) as [|fv upd].
  - split; reflexivity.
  - destruct (write_err _ _); [split; reflexivity|]. apply update_first_keeps.
Qed.

Lemma turf_get_set : forall t f v g, In g turf_fields ->
  turf_get (set_turf_field t (f, v)) g = if String.eqb f g then v else turf_get t g.
Proof.
  intros [i ow n l sz am pr av su ca de] f v g Hg. unfold set_turf_field.
  simpl in Hg.
  repeat (destruct Hg as [<-|Hg]; [unfold turf_get; cbn [String.eqb Ascii.eqb Bool.eqb];
            split_field_ifs; first
              [ reflexivity
              | repeat match goal with H : String.eqb _ _ = true |- _ =>
                         apply String.eqb_eq in H end;
                subst; discriminate ]|]).
  destruct Hg.
Qed.

Lemma turf_get_fold : forall d L t g, In g turf_fields ->
  turf_get (fold_left set_turf_field (map (fun f => (f, dget d f)) L) t) g
  = if existsb (String.eqb g) L then dget d g else turf_get t g.
Proof.
  intros d L. induction L as [|a L IH]; intros t g Hg; [reflexivity|].
  cbn [map fold_left existsb]. rewrite IH by exact Hg. rewrite turf_get_set by exact Hg.
  rewrite (String.eqb_sym a g).
  destruct (existsb (String.eqb g) L); [rewrite orb_true_r; reflexivity|].
  rewrite orb_false_r. destruct (String.eqb g a) eqn:E; [|reflexivity].
  apply String.eqb_eq in E. subst a. reflexivity.
Qed.

Lemma existsb_filter_eqb : forall (p : string -> bool) L g, In g L ->
  existsb (String.eqb g) (filter p L) = p g.
Proof.
  intros p L g Hg. destruct (p g) eqn:Ep.
  - apply existsb_exists. exists g. split; [apply filter_In; auto|apply String.eqb_refl].
  - destruct (existsb (String.eqb g) (filter p L)) eqn:Ex; [|reflexivity].
    apply existsb_exists in Ex. destruct Ex as [x [Hx Eg]].
    apply String.eqb_eq in Eg. subst x. apply filter_In in Hx as [_ Hp]. congruence.
Qed.

Lemma find_turf_owned_some : forall o ow ts t,
  find_turf_owned o ow ts = Some t -> In t ts /\ t_id t = o /\ t_owner_id t = ow.
Proof.
  intros o ow ts t H. apply find_some in H. destruct H as [Hin H].
  apply andb_true_iff in H. destruct H as [H1 H2].
  apply oid_eqb_eq in H1. apply String.eqb_eq in H2. auto.
Qed.

Lemma update_first_map : forall o upd ts,
  NoDup (map t_id ts) ->
  update_first o upd ts
  = map (fun x => if oid_eqb (t_id x) o then fold_left set_turf_field upd x else x) ts.
Proof.
  intros o upd ts Hnd. induction ts as [|x ts IH]; [reflexivity|].
  simpl in Hnd. inversion Hnd as [|? ? Hnotin Hnd']; subst. simpl.
  destruct (oid_eqb (t_id x) o) eqn:E; [|rewrite IH by exact Hnd'; reflexivity].
  apply oid_eqb_eq in E. subst o. f_equal. symmetry.
  rewrite <- (map_id ts) at 2. apply map_ext_in.
  intros y Hy. destruct (oid_eqb (t_id y) (t_id x)) eqn:E; [|reflexivity].
  apply oid_eqb_eq in E. exfalso. apply Hnotin. rewrite <- E. apply in_map. exact Hy.
Qed.

(** Extra X10: with unique turf ids, a 200 from [update_turf] means the
    turf with the requested id belongs to the caller, and it alone is
    replaced by a document with the same [_id] and [owner_id] in which
    each of [turf_fields] present in the body (even as [null] or [0])
    takes the body's value and every other field keeps its value; the
    bookings and the id counter are untouched. *)
Theorem X10_update_turf_success : forall accept cu id d s s' o,
  NoDup (map t_id (turfs s)) -> ObjectId id = Some o ->
  update_turf accept cu id d s = (RMsg 200 "Turf updated successfully", s') ->
  exists t t', In t (turfs s) /\ t_id t = o /\ t_owner_id t = snd cu
    /\ turfs s' = map (fun x => if oid_eqb (t_id x) o then t' else x) (turfs s)
    /\ bookings s' = bookings s /\ next_oid s' = next_oid s
    /\ t_id t' = t_id t /\ t_owner_id t' = t_owner_id t
    /\ (forall g, In g turf_fields ->
          turf_get t' g = if dhas d g then dget d g else turf_get t g).
Proof.
  intros accept cu id d s s' o Hnd Eo H. unfold update_turf in H.
  destruct (negb (String.eqb (fst cu) "owner")); [discriminate|].
  rewrite Eo in H.
  destruct (find_turf_owned o (snd cu) (turfs s)) as [t|] eqn:Ef; [|discriminate].
  destruct (find_turf_owned_some _ _ _ _ Ef) as (Hin & Hid & How).
  set (upd := map (fun f => (f, dget d f)) (filter (fun f => dhas d f) turf_fields)) in H.
  destruct upd as [|fv upd'] eqn:Eu; [discriminate|].
  destruct (write_err accept (map snd (fv :: upd'))); [discriminate|].
  injection H as <-. rewrite <- Eu.
  exists t, (fold_left set_turf_field upd t).
  destruct (fold_set_turf_field_keeps upd t) as [K1 K2].
  split; [exact Hin|]. split; [exact Hid|]. split; [exact How|].
  split.
  { cbn [turfs]. rewrite update_first_map by exact Hnd. apply map_ext_in.
    intros x Hx. destruct (oid_eqb (t_id x) o) eqn:E; [|reflexivity].
    apply oid_eqb_eq in E.
    rewrite (NoDup_map_inj t_id (turfs s) x t Hnd Hx Hin (eq_trans E (eq_sym Hid))).
    reflexivity. }
  split; [reflexivity|]. split; [reflexivity|].
  split; [exact K1|]. split; [exact K2|].
  intros g Hg. unfold upd. rewrite turf_get_fold by exact Hg.
  rewrite existsb_filter_eqb by exact Hg. reflexivity.
Qed.

Lemma delete_first_filter : forall o ts,
  NoDup (map t_id ts) ->
  delete_first o ts = filter (fun x => negb (oid_eqb (t_id x) o)) ts.
Proof.
  intros o ts Hnd. induction ts as [|x ts IH]; [reflexivity|].
  simpl in Hnd. inversion Hnd as [|? ? Hnotin Hnd']; subst. simpl.
  destruct (oid_eqb (t_id x) o) eqn:E; simpl; [|rewrite IH by exact Hnd'; reflexivity].
  apply oid_eqb_eq in E. subst o. symmetry. apply forallb_filter_id.
  apply forallb_forall. intros y Hy.
  destruct (oid_eqb (t_id y) (t_id x)) eqn:E; [|reflexivity].
  apply oid_eqb_eq in E. exfalso. apply Hnotin. rewrite <- E. apply in_map. exact Hy.
Qed.

(** Extra X11: with unique turf ids, a 200 from [delete_turf] means the
    caller owned the turf and no confirmed booking stored the requested
    id string as its [turf_id]; exactly the turfs with that [_id] are
    gone, and the bookings are kept. *)
Theorem X11_delete_turf_success : forall cu id s s' o,
  NoDup (map t_id (turfs s)) -> ObjectId id = Some o ->
  delete_turf cu id s = (RMsg 200 "Turf deleted successfully", s') ->
  (exists t, In t (turfs s) /\ t_id t = o /\ t_owner_id t = snd cu)
  /\ turfs s' = filter (fun x => negb (oid_eqb (t_id x) o)) (turfs s)
  /\ bookings s' = bookings s /\ next_oid s' = next_oid s
  /\ (forall b, In b (bookings s) -> b_turf_id b = id -> b_status b <> "confirmed").
Proof.
  intros cu id s s' o Hnd Eo H. unfold delete_turf in H.
  destruct (negb (String.eqb (fst cu) "owner")); [discriminate|].
  rewrite Eo in H.
  destruct (find_turf_owned o (snd cu) (turfs s)) as [t|] eqn:Ef; [|discriminate].
  destruct (existsb _ (bookings s)) eqn:Ex; [discriminate|].
  injection H as <-.
  split; [exists t; exact (find_turf_owned_some _ _ _ _ Ef)|].
  split; [apply delete_first_filter; exact Hnd|].
  split; [reflexivity|]. split; [reflexivity|].
  intros b Hb Ht Hs.
  assert (existsb (fun b => String.eqb (b_turf_id b) id
                            && String.eqb (b_status b) "confirmed") (bookings s) = true)
    as Ex'.
  { apply existsb_exists. exists b. rewrite Ht, Hs, !String.eqb_refl. auto. }
  congruence.
Qed.

Lemma listing_app : forall {A : Type} (f : A -> bool) (dmp : A -> turf_dump) l x,
  f x = true -> map dmp (filter f (l ++ [x])%list) = (map dmp (filter f l) ++ [dmp x])%list.
Proof.
  intros A f dmp l x Hx. rewrite filter_app, map_app. simpl. rewrite Hx. reflexivity.
Qed.

(** Extra X12: after [add_turf] answers 201 with an id, that id names a
    new turf appended to the store, owned by the caller, whose
    [availability] is the body's (default [true]); the caller's
    [get_owner_turfs] lists their earlier turfs followed by it, and
    [get_turfs] lists it after the earlier available turfs exactly when its
    [availability] matches [True] (the boolean [true], or an array holding
    it; otherwise the listing is as before). *)
Theorem X12_add_turf_listed : forall accept cu d s m i s',
  add_turf accept cu d s = (RCreated m i, s') ->
  exists t, turfs s' = (turfs s ++ [t])%list /\ ObjectId i = Some (t_id t)
    /\ t_owner_id t = snd cu
    /\ t_availability t = dget_default d "availability" (JBool true)
    /\ get_owner_turfs cu s'
       = TList (map tdump (filter (fun x => String.eqb (t_owner_id x) (snd cu)) (turfs s))
                ++ [tdump t])%list
    /\ get_turfs s'
       = if matches_true (t_availability t)
         then TList (map tdump (filter (fun x => matches_true (t_availability x)) (turfs s))
                     ++ [tdump t])%list
         else get_turfs s.
Proof.
  intros accept cu d s m i s' H. unfold add_turf in H.
  destruct (String.eqb (fst cu) "owner") eqn:Eo; [|discriminate]. cbn [negb] in H.
  destruct (negb (forallb truthy _)); [discriminate|].
  destruct (write_err _ _); [discriminate|].
  injection H as _ <- <-.
  eexists. split; [reflexivity|]. split; [apply fresh_oid_parse|].
  split; [reflexivity|]. split; [reflexivity|]. split.
  - unfold get_owner_turfs. rewrite Eo. cbn [negb turfs].
    rewrite listing_app by (cbn [t_owner_id]; apply String.eqb_refl).
    destruct (map tdump _ ++ _)%list eqn:E; [|reflexivity].
    exfalso. apply app_eq_nil in E. destruct E as [_ E]. discriminate.
  - unfold get_turfs. cbn [turfs]. rewrite filter_app, map_app.
    destruct (matches_true (t_availability _)) eqn:Ea.
    + cbn [filter]. rewrite Ea. cbn [map].
      destruct (map tdump _ ++ _)%list eqn:E; [|reflexivity].
      exfalso. apply app_eq_nil in E. destruct E as [_ E]. discriminate.
    + cbn [filter]. rewrite Ea, app_nil_r. reflexivity.
Qed.

(** Extra X13: an owner naming a turf of another owner gets the same 404
    as for an id that names no turf, from [get_turf_bookings],
    [update_turf] and [delete_turf], and the store is unchanged. *)
Theorem X13_foreign_turf_hidden : forall accept ow id d s o,
  ObjectId id = Some o ->
  (forall t, In t (turfs s) -> t_id t = o -> t_owner_id t <> ow) ->
  get_turf_bookings ("owner", ow) id s = RMsg 404 "Turf not found or unauthorized"
  /\ update_turf accept ("owner", ow) id d s = (RMsg 404 "Turf not found or unauthorized", s)
  /\ delete_turf ("owner", ow) id s = (RMsg 404 "Turf not found or unauthorized", s).
Proof.
  intros accept ow id d s o Eo Hf.
  assert (En : find_turf_owned o ow (turfs s) = None).
  { apply find_none_all. intros t Ht.
    destruct (oid_eqb (t_id t) o) eqn:E1; [|reflexivity].
    destruct (String.eqb (t_owner_id t) ow) eqn:E2; [|reflexivity].
    apply oid_eqb_eq in E1. apply String.eqb_eq in E2.
    exfalso. exact (Hf t Ht E1 E2). }
  unfold get_turf_bookings, update_turf, delete_turf. cbn [fst snd].
  rewrite String.eqb_refl. cbn [negb]. rewrite Eo, En. repeat split.
Qed.

End ExtraTurfs.
Section ExtraAfterBooking.
Local Open Scope string_scope.

Ltac close_nonempty_listing :=
  match goal with
  | |- context [match (?l ++ [?x])%list with _ => _ end] =>
      let E := fresh "E" in
      destruct (l ++ [x])%list eqn:E;
      [exfalso; apply app_eq_nil in E; destruct E as [_ E]; discriminate|reflexivity]
  end.

(** What a 201 from [book_turf] leaves behind, in the terms the other
    views read. *)
Lemma book_turf_created_shape : forall parse accept c cu d s m i s',
  book_turf parse accept c cu d s = (RCreated m i, s') ->
  exists p o t,
    book_check parse c cu d s = inr p
    /\ s' = mkSt (turfs s)
             (bookings s ++ [mkBooking (fresh_oid (next_oid s)) (p_user_id p) (p_turf_id p)
                               (p_start_time p) (p_end_time p) "confirmed"
                               (p_total_cost p) (clk_insert c / 1000) (p_notes p)])%list
             (next_oid s + 1)
    /\ ObjectId (p_turf_id p) = Some o /\ In t (turfs s) /\ t_id t = o.
Proof.
  intros parse accept c cu d s m i s' H.
  destruct (book_turf_created parse accept _ _ _ _ _ _ H eq_refl) as (p & P & _ & _ & M).
  destruct (book_check_pending parse _ _ _ _ _ P)
    as (_ & _ & _ & _ & (_ & _ & _ & _ & _ & _ & _ & _ & (o & t & Eo & Et & _)) & _).
  unfold find_turf_avail in Et. apply find_some in Et. destruct Et as [Hin Ht].
  apply andb_true_iff in Ht. destruct Ht as [Hid _]. apply oid_eqb_eq in Hid.
  exists p, o, t. auto 6.
Qed.

(** Extra X14: after a 201 from [book_turf], the owner of the booked turf,
    naming the turf by the same id string, finds the new booking at the
    end of [get_turf_bookings], and [delete_turf] refuses with 400 (the
    store unchanged). *)
Theorem X14_owner_sees_booking : forall parse accept c cu d s m i s',
  book_turf parse accept c cu d s = (RCreated m i, s') ->
  exists b t,
    bookings s' = (bookings s ++ [b])%list /\ In t (turfs s)
    /\ ObjectId (b_turf_id b) = Some (t_id t)
    /\ get_turf_bookings ("owner", t_owner_id t) (b_turf_id b) s'
       = RList (map dump (filter (fun x => String.eqb (b_turf_id x) (b_turf_id b))
                                 (bookings s)) ++ [dump b])%list
    /\ delete_turf ("owner", t_owner_id t) (b_turf_id b) s'
       = (RMsg 400 "Cannot delete turf with active bookings", s').
Proof.
  intros parse accept c cu d s m i s' H.
  destruct (book_turf_created_shape parse accept _ _ _ _ _ _ _ H)
    as (p & o & t & _ & -> & Eo & Hin & Hid).
  eexists _, t. split; [reflexivity|]. split; [exact Hin|].
  cbn [b_turf_id]. rewrite Hid. split; [exact Eo|].
  assert (Eow : find_turf_owned o (t_owner_id t) (turfs s) <> None).
  { intros En. apply find_none with (x := t) in En; [|exact Hin].
    rewrite <- Hid, (proj2 (oid_eqb_eq _ _) eq_refl), String.eqb_refl in En. discriminate. }
  split.
  - unfold get_turf_bookings. cbn [fst snd turfs bookings]. rewrite String.eqb_refl.
    cbn [negb]. rewrite Eo.
    destruct (find_turf_owned o (t_owner_id t) (turfs s)); [|contradiction].
    rewrite filter_app, map_app. cbn [filter b_turf_id]. rewrite String.eqb_refl.
    cbn [map]. close_nonempty_listing.
  - unfold delete_turf. cbn [fst snd turfs bookings]. rewrite String.eqb_refl.
    cbn [negb]. rewrite Eo.
    destruct (find_turf_owned o (t_owner_id t) (turfs s)); [|contradiction].
    rewrite existsb_app. cbn [existsb b_turf_id b_status].
    rewrite !String.eqb_refl, orb_true_r. reflexivity.
Qed.

(** Extra X15: after a 201 from [book_turf], the customer's
    [get_user_bookings] is their earlier bookings followed by the new one,
    which is confirmed. *)
Theorem X15_user_sees_booking : forall parse accept c cu d s m i s',
  book_turf parse accept c cu d s = (RCreated m i, s') ->
  exists b,
    bookings s' = (bookings s ++ [b])%list /\ b_status b = "confirmed"
    /\ get_user_bookings cu s'
       = RList (map dump (filter (fun x => String.eqb (b_user_id x) (snd cu))
                                 (bookings s)) ++ [dump b])%list.
Proof.
  intros parse accept c cu d s m i s' H.
  destruct (book_turf_created_shape parse accept _ _ _ _ _ _ _ H) as (p & o & t & P & -> & _).
  destruct (book_check_pending parse _ _ _ _ _ P) as (Hu & Hpu & _).
  eexists. split; [reflexivity|]. split; [reflexivity|].
  unfold get_user_bookings. rewrite Hu, String.eqb_refl. cbn [negb bookings].
  rewrite filter_app, map_app. cbn [filter b_user_id]. rewrite Hpu, String.eqb_refl.
  cbn [map]. close_nonempty_listing.
Qed.

(** [book_check] at clocks [c'] that read both times as [c] did, against
    a store with the same turfs, in which a confirmed booking already
    meets the slot it inserted at [c]. *)
Lemma book_check_conflict : forall parse c c' cu d s s2 p,
  book_check parse c cu d s = inr p -> turfs s2 = turfs s ->
  parse_time parse (clk_start c') (dget d "start_time")
    = parse_time parse (clk_start c) (dget d "start_time") ->
  parse_time parse (clk_end c') (dget d "end_time")
    = parse_time parse (clk_end c) (dget d "end_time") ->
  existsb (overlap_query (p_turf_id p) (p_start_time p) (p_end_time p)) (bookings s2) = true ->
  book_check parse c' cu d s2 = inl (RMsg 409 "Time slot unavailable").
Proof.
  intros parse c c' cu d s s2 p H Ht Hs He Hx. unfold book_check in *.
  cbv zeta in *. rewrite Hs, He, Ht.
  destruct (negb (String.eqb (fst cu) "user")); [discriminate|].
  destruct (negb (truthy (dget d "turf_id") && truthy (dget d "start_time")
            && truthy (dget d "end_time"))); [discriminate|].
  destruct (parse_time parse (clk_start c) (dget d "start_time")) as [a|]; [|discriminate].
  destruct (parse_time parse (clk_end c) (dget d "end_time")) as [e|]; [|discriminate].
  destruct (dt_ge a e) as [[|]|]; try discriminate.
  destruct (dget d "turf_id") as [| | | |tid| |]; try discriminate.
  destruct (ObjectId tid) as [o|]; [|discriminate].
  destruct (find_turf_avail o (turfs s)) as [t|]; [|discriminate].
  destruct (to_ms a) as [ma|]; [|discriminate].
  destruct (to_ms e) as [me|]; [|discriminate].
  destruct (existsb (overlap_query tid ma me) (bookings s)); [discriminate|].
  destruct (price_times (t_price_per_hour t) (duration_hours (dt_us a) (dt_us e)));
    [discriminate|].
  injection H as <-. cbn [p_turf_id p_start_time p_end_time] in Hx.
  rewrite Hx. reflexivity.
Qed.

(** Extra X16: sending the same booking request again, after a 201, at
    clock readings at which the parser reads its start and end times as
    it did the first time, is answered 409 ["Time slot unavailable"] and
    changes nothing: the request now meets its own booking. *)
Theorem X16_repeat_booking_conflict : forall parse accept c c' cu d s m i s',
  book_turf parse accept c cu d s = (RCreated m i, s') ->
  parse_time parse (clk_start c') (dget d "start_time")
    = parse_time parse (clk_start c) (dget d "start_time") ->
  parse_time parse (clk_end c') (dget d "end_time")
    = parse_time parse (clk_end c) (dget d "end_time") ->
  book_turf parse accept c' cu d s' = (RMsg 409 "Time slot unavailable", s').
Proof.
  intros parse accept c c' cu d s m i s' H Hs He.
  destruct (book_turf_created_shape parse accept _ _ _ _ _ _ _ H) as (p & o & t & P & E & _).
  destruct (book_check_pending parse _ _ _ _ _ P)
    as (_ & _ & _ & _ & (a & e & _ & _ & _ & Hlt & Ma & Me & _) & _).
  pose proof (to_ms_le _ _ _ _ Ma Me ltac:(lia)) as Hle.
  unfold book_turf.
  rewrite (book_check_conflict parse c c' cu d s s' p P);
    [reflexivity| rewrite E; reflexivity|exact Hs|exact He|].
  rewrite E. cbn [bookings]. rewrite existsb_app. cbn [existsb].
  unfold overlap_query at 2. cbn [b_turf_id b_status b_start_time b_end_time].
  rewrite !String.eqb_refl, overlap_code_closed by exact Hle.
  rewrite (proj2 (Z.leb_le _ _) Hle). rewrite ?orb_true_r. reflexivity.
Qed.

End ExtraAfterBooking.


Section ExtraAccounts.
Local Open Scope string_scope.


Lemma existsb_false_all : forall {A : Type} (f : A -> bool) l,
  existsb f l = false -> forall x, In x l -> f x = false.
Proof.
  intros A f l H x Hx. destruct (f x) eqn:E; [|reflexivity].
  assert (existsb f l = true) by (apply existsb_exists; eauto). congruence.
Qed.

Lemma forallb_false_in : forall {A : Type} (f : A -> bool) l x,
  In x l -> f x = false -> forallb f l = false.
Proof.
  intros A f l x Hx Hf. destruct (forallb f l) eqn:E; [|reflexivity].
  rewrite forallb_forall in E. rewrite (E x Hx) in Hf. discriminate.
Qed.

Lemma forallb_in_true : forall {A : Type} (f : A -> bool) l x,
  forallb f l = true -> In x l -> f x = true.
Proof.
  intros A f l x H Hx. rewrite forallb_forall in H. exact (H x Hx).
Qed.



Lemma dget_login_email : forall em pw, dget (login_req em pw) "email" = em.
Proof. reflexivity. Qed.

Lemma dget_login_password : forall em pw, dget (login_req em pw) "password" = pw.
Proof. reflexivity. Qed.

Lemma truthy_str : forall e, e <> "" -> truthy (JStr e) = true.
Proof. intros e H. simpl. apply String.eqb_neq in H. rewrite H. reflexivity. Qed.



(** Extra X19: a customer who has just registered with a string email and
    a string password logs in with them, when the equality filter on a
    string finds every stored copy of it and [check_password_hash] accepts
    what [generate_password_hash] made of a string; the token carries
    [user_type = "user"], the id the registration answered with, and an
    expiry 24 hours after the login, in whole seconds. *)
Theorem X19_user_register_login :
  forall mquery gen_hash check_hash accept now now' d a m i a' em pw,
  (forall e f, mquery (JStr e) = Some f -> f (JStr e) = true) ->
  (forall n p h, gen_hash n (JStr p) = Some h -> check_hash h (JStr p) = Some true) ->
  dget d "email" = JStr em -> dget d "password" = JStr pw ->
  user_register mquery gen_hash accept now d a = (RCreated m i, a') ->
  user_login mquery check_hash now' (login_req (JStr em) (JStr pw)) a'
  = LOk "user" i (now' / 1000000 + 86400).
Proof.
  intros mquery gen_hash check_hash accept now now' d a m i a' em pw Hmq Hh Eem Epw H.
  unfold user_register in H. cbv zeta in H. rewrite Eem, Epw in H.
  destruct (forallb truthy _) eqn:Ep; [|discriminate]. cbn [negb] in H.
  destruct (mquery (JStr em)) as [fe|] eqn:Em; [|discriminate].
  destruct (existsb (fun u => fe (u_email u)) (users a)) eqn:Ee; [discriminate|].
  destruct (mquery (dget d "username")) as [fu|]; [|discriminate].
  destruct (existsb (fun u => fu (u_username u)) (users a)); [discriminate|].
  destruct (gen_hash (acc_next_oid a) (JStr pw)) as [h|] eqn:Eh; [|discriminate].
  destruct (write_err _ _); [discriminate|].
  injection H as _ <- <-.
  assert (Tem : truthy (JStr em) = true)
    by (apply (forallb_in_true truthy _ _ Ep); simpl; auto).
  assert (Tpw : truthy (JStr pw) = true)
    by (apply (forallb_in_true truthy _ _ Ep); simpl; auto 6).
  unfold user_login. cbv zeta. rewrite dget_login_email, dget_login_password.
  rewrite Tem, Tpw. cbn [negb orb]. rewrite Em. cbn [users].
  rewrite find_app_none by (apply existsb_false_all; exact Ee).
  cbn [find u_email]. rewrite (Hmq em fe Em). cbn [u_password u_id].
  rewrite (Hh _ _ _ Eh). reflexivity.
Qed.

(** Extra X20: the same round trip for owners: an owner who has just
    registered with a string email and a string password logs in with
    them, with [user_type = "owner"], the id of the registration and an
    expiry 24 hours after the login. *)
Theorem X20_owner_register_login :
  forall mquery gen_hash check_hash accept now now' d a m i a' em pw,
  (forall e f, mquery (JStr e) = Some f -> f (JStr e) = true) ->
  (forall n p h, gen_hash n (JStr p) = Some h -> check_hash h (JStr p) = Some true) ->
  dget d "email" = JStr em -> dget d "password" = JStr pw ->
  owner_register mquery gen_hash accept now d a = (RCreated m i, a') ->
  owner_login mquery check_hash now' (login_req (JStr em) (JStr pw)) a'
  = LOk "owner" i (now' / 1000000 + 86400).
Proof.
  intros mquery gen_hash check_hash accept now now' d a m i a' em pw Hmq Hh Eem Epw H.
  unfold owner_register in H. cbv zeta in H. rewrite Eem, Epw in H.
  destruct (forallb truthy _) eqn:Ep; [|discriminate]. cbn [negb] in H.
  destruct (mquery (JStr em)) as [fe|] eqn:Em; [|discriminate].
  destruct (existsb (fun u => fe (o_email u)) (owners a)) eqn:Ee; [discriminate|].
  destruct (mquery (dget d "username")) as [fu|]; [|discriminate].
  destruct (existsb (fun u => fu (o_username u)) (owners a)); [discriminate|].
  destruct (gen_hash (acc_next_oid a) (JStr pw)) as [h|] eqn:Eh; [|discriminate].
  destruct (write_err _ _); [discriminate|].
  injection H as _ <- <-.
  assert (Tem : truthy (JStr em) = true)
    by (apply (forallb_in_true truthy _ _ Ep); simpl; auto).
  assert (Tpw : truthy (JStr pw) = true)
    by (apply (forallb_in_true truthy _ _ Ep); simpl; auto 6).
  unfold owner_login. cbv zeta. rewrite dget_login_email, dget_login_password.
  rewrite Tem, Tpw. cbn [negb orb]. rewrite Em. cbn [owners].
  rewrite find_app_none by (apply existsb_false_all; exact Ee).
  cbn [find o_email]. rewrite (Hmq em fe Em). cbn [o_password o_id].
  rewrite (Hh _ _ _ Eh). reflexivity.
Qed.

(** Extra X21: login does not tell an unknown email from a wrong
    password: for a non-empty string email whose filter runs and a
    non-empty string password, both answer 401 ["Invalid credentials"],
    on the customer and on the owner route. *)
Theorem X21_login_opacity : forall mquery check_hash now a em pw f,
  em <> "" -> pw <> "" -> mquery (JStr em) = Some f ->
  ((forall u, In u (users a) -> f (u_email u) = false) ->
     user_login mquery check_hash now (login_req (JStr em) (JStr pw)) a
     = LMsg 401 "Invalid credentials")
  /\ (forall u, find (fun u => f (u_email u)) (users a) = Some u ->
        check_hash (u_password u) (JStr pw) = Some false ->
        user_login mquery check_hash now (login_req (JStr em) (JStr pw)) a
        = LMsg 401 "Invalid credentials")
  /\ ((forall o, In o (owners a) -> f (o_email o) = false) ->
     owner_login mquery check_hash now (login_req (JStr em) (JStr pw)) a
     = LMsg 401 "Invalid credentials")
  /\ (forall o, find (fun o => f (o_email o)) (owners a) = Some o ->
        check_hash (o_password o) (JStr pw) = Some false ->
        owner_login mquery check_hash now (login_req (JStr em) (JStr pw)) a
        = LMsg 401 "Invalid credentials").
Proof.
  intros mquery check_hash now a em pw f Hem Hpw Em.
  unfold user_login, owner_login. cbv zeta.
  rewrite dget_login_email, dget_login_password, !truthy_str by assumption.
  cbn [negb orb]. rewrite Em.
  split; [|split; [|split]].
  - intros Hn. rewrite find_none_all; [reflexivity|]. exact Hn.
  - intros u Hf Hc. rewrite Hf, Hc. reflexivity.
  - intros Hn. rewrite find_none_all; [reflexivity|]. exact Hn.
  - intros o Hf Hc. rewrite Hf, Hc. reflexivity.
Qed.

(** Extra X22: a registration body in which one of the fields the route
    requires is absent or holds a falsy JSON value ([null], [false], [0],
    [0.0], [""], [[]], [{}]) answers 400 ["Missing fields"] and leaves the
    accounts as they were; so does a login body whose email or password is
    absent or falsy. *)
Theorem X22_missing_fields : forall mquery gen_hash check_hash accept now d a,
  (forall k, In k ["username"; "email"; "password"; "full_name"; "phone"] ->
     truthy (dget d k) = false ->
     user_register mquery gen_hash accept now d a = (RMsg 400 "Missing fields", a))
  /\ (forall k, In k ["username"; "email"; "password"; "name"; "phone";
                      "business_name"; "address"] ->
     truthy (dget d k) = false ->
     owner_register mquery gen_hash accept now d a = (RMsg 400 "Missing fields", a))
  /\ ((truthy (dget d "email") = false \/ truthy (dget d "password") = false) ->
      user_login mquery check_hash now d a = LMsg 400 "Missing fields"
      /\ owner_login mquery check_hash now d a = LMsg 400 "Missing fields").
Proof.
  intros mquery gen_hash check_hash accept now d a. split; [|split].
  - intros k Hk Hf. unfold user_register. cbv zeta.
    apply (in_map (dget d)) in Hk. cbn [map] in Hk.
    rewrite (forallb_false_in truthy _ _ Hk Hf). reflexivity.
  - intros k Hk Hf. unfold owner_register. cbv zeta.
    apply (in_map (dget d)) in Hk. cbn [map] in Hk.
    rewrite (forallb_false_in truthy _ _ Hk Hf). reflexivity.
  - intros H. unfold user_login, owner_login. cbv zeta.
    destruct H as [E|E]; rewrite E; cbn [negb orb].
    + split; reflexivity.
    + rewrite orb_true_r. split; reflexivity.
Qed.

End ExtraAccounts.

Section ExtraWitnesses2.
Local Open Scope string_scope.

Lemma s_turf_ids : NoDup (map t_id (turfs s_turf)).
Proof. constructor; [intros []|constructor]. Qed.

Lemma s_booked_turfs : turfs s_booked = [turfA].
Proof. vm_compute. reflexivity. Qed.

Lemma mquery_str_finds : forall e f, mquery_str (JStr e) = Some f -> f (JStr e) = true.
Proof.
  intros e f H. injection H as <-. simpl. apply String.eqb_refl.
Qed.

Lemma hash_demo_checks : forall n p h,
  hash_demo n (JStr p) = Some h -> check_demo h (JStr p) = Some true.
Proof.
  intros n p h H. injection H as <-. simpl. rewrite String.eqb_refl. reflexivity.
Qed.

(** Witness of [X10_update_turf_success]: owner ["o1"] sets the price and
    the availability of its turf. *)
Lemma X10_update_turf_success_witness :
  let s' := snd (update_turf accept_legacy ("owner", "o1") turf_lower update_req s_turf) in
  exists t t', In t (turfs s_turf) /\ t_id t = turf_a /\ t_owner_id t = "o1"
    /\ turfs s' = map (fun x => if oid_eqb (t_id x) turf_a then t' else x) (turfs s_turf)
    /\ bookings s' = bookings s_turf /\ next_oid s' = next_oid s_turf
    /\ t_id t' = t_id t /\ t_owner_id t' = t_owner_id t
    /\ (forall g, In g turf_fields ->
          turf_get t' g = if dhas update_req g then dget update_req g else turf_get t g).
Proof.
  apply (X10_update_turf_success accept_legacy ("owner", "o1") turf_lower update_req s_turf).
  - exact s_turf_ids.
  - vm_compute. reflexivity.
  - vm_compute. reflexivity.
Defined.

(** Witness of [X11_delete_turf_success]: owner ["o1"] deletes its turf,
    which has no booking. *)
Lemma X11_delete_turf_success_witness :
  let s' := snd (delete_turf ("owner", "o1") turf_lower s_turf) in
  (exists t, In t (turfs s_turf) /\ t_id t = turf_a /\ t_owner_id t = "o1")
  /\ turfs s' = filter (fun x => negb (oid_eqb (t_id x) turf_a)) (turfs s_turf)
  /\ bookings s' = bookings s_turf /\ next_oid s' = next_oid s_turf
  /\ (forall b, In b (bookings s_turf) -> b_turf_id b = turf_lower -> b_status b <> "confirmed").
Proof.
  apply (X11_delete_turf_success ("owner", "o1") turf_lower s_turf).
  - exact s_turf_ids.
  - vm_compute. reflexivity.
  - vm_compute. reflexivity.
Defined.

(** Witness of [X12_add_turf_listed]: owner ["o1"] adds a second turf. *)
Lemma X12_add_turf_listed_witness :
  let s' := snd (add_turf accept_legacy ("owner", "o1") turf_req_negative s_turf) in
  exists t, turfs s' = (turfs s_turf ++ [t])%list
    /\ ObjectId "000000000000000000000001" = Some (t_id t)
    /\ t_owner_id t = "o1"
    /\ t_availability t = dget_default turf_req_negative "availability" (JBool true)
    /\ get_owner_turfs ("owner", "o1") s'
       = TList (map tdump (filter (fun x => String.eqb (t_owner_id x) "o1") (turfs s_turf))
                ++ [tdump t])%list
    /\ get_turfs s'
       = if matches_true (t_availability t)
         then TList (map tdump (filter (fun x => matches_true (t_availability x))
                                       (turfs s_turf)) ++ [tdump t])%list
         else get_turfs s_turf.
Proof.
  apply (X12_add_turf_listed accept_legacy ("owner", "o1") turf_req_negative s_turf
           "Turf added successfully").
  vm_compute. reflexivity.
Defined.

(** Witness of [X13_foreign_turf_hidden]: owner ["o2"] names the turf of
    ["o1"] in [s_booked]. *)
Lemma X13_foreign_turf_hidden_witness :
  get_turf_bookings ("owner", "o2") turf_lower s_booked
    = RMsg 404 "Turf not found or unauthorized"
  /\ update_turf accept_legacy ("owner", "o2") turf_lower update_req s_booked
     = (RMsg 404 "Turf not found or unauthorized", s_booked)
  /\ delete_turf ("owner", "o2") turf_lower s_booked
     = (RMsg 404 "Turf not found or unauthorized", s_booked).
Proof.
  apply (X13_foreign_turf_hidden accept_legacy "o2" turf_lower update_req s_booked turf_a).
  - vm_compute. reflexivity.
  - intros t Ht _. rewrite s_booked_turfs in Ht. destruct Ht as [<-|[]].
    vm_compute. discriminate.
Defined.

(** Witness of [X14_owner_sees_booking]: the booking of [s_booked]. *)
Lemma X14_owner_sees_booking_witness :
  exists b t,
    bookings s_booked = (bookings s_turf ++ [b])%list /\ In t (turfs s_turf)
    /\ ObjectId (b_turf_id b) = Some (t_id t)
    /\ get_turf_bookings ("owner", t_owner_id t) (b_turf_id b) s_booked
       = RList (map dump (filter (fun x => String.eqb (b_turf_id x) (b_turf_id b))
                                 (bookings s_turf)) ++ [dump b])%list
    /\ delete_turf ("owner", t_owner_id t) (b_turf_id b) s_booked
       = (RMsg 400 "Cannot delete turf with active bookings", s_booked).
Proof.
  apply (X14_owner_sees_booking parse_hhmm accept_legacy clk0 ("user", "u1")
           (book_req turf_lower "10:00" "12:00") s_turf
           "Booking created successfully" "000000000000000000000001").
  vm_compute. reflexivity.
Defined.

(** Witness of [X15_user_sees_booking]: ["u1"] lists its bookings in
    [s_booked]. *)
Lemma X15_user_sees_booking_witness :
  exists b,
    bookings s_booked = (bookings s_turf ++ [b])%list /\ b_status b = "confirmed"
    /\ get_user_bookings ("user", "u1") s_booked
       = RList (map dump (filter (fun x => String.eqb (b_user_id x) "u1")
                                 (bookings s_turf)) ++ [dump b])%list.
Proof.
  apply (X15_user_sees_booking parse_hhmm accept_legacy clk0 ("user", "u1")
           (book_req turf_lower "10:00" "12:00") s_turf
           "Booking created successfully" "000000000000000000000001").
  vm_compute. reflexivity.
Defined.

(** Witness of [X16_repeat_booking_conflict]: ["u1"] sends its request
    again a minute later, the same day. *)
Lemma X16_repeat_booking_conflict_witness :
  book_turf parse_hhmm accept_legacy (mkClocks 60000000 60000000 60000000)
    ("user", "u1") (book_req turf_lower "10:00" "12:00") s_booked
  = (RMsg 409 "Time slot unavailable", s_booked).
Proof.
  apply (X16_repeat_booking_conflict parse_hhmm accept_legacy clk0
           (mkClocks 60000000 60000000 60000000) ("user", "u1")
           (book_req turf_lower "10:00" "12:00") s_turf
           "Booking created successfully" "000000000000000000000001").
  - vm_compute. reflexivity.
  - vm_compute. reflexivity.
  - vm_compute. reflexivity.
Defined.



(** Witness of [X19_user_register_login]: ["ann"] registers, then logs in
    a minute later. *)
Lemma X19_user_register_login_witness :
  user_login mquery_str check_demo 60000000
    (login_req (JStr "ann@example.com") (JStr "pw1"))
    (snd (user_register mquery_str hash_demo accept_legacy 0 user_req acc0))
  = LOk "user" "000000000000000000000001" (60000000 / 1000000 + 86400).
Proof.
  apply (X19_user_register_login mquery_str hash_demo check_demo accept_legacy
           0 60000000 user_req acc0 "User created successfully").
  - exact mquery_str_finds.
  - exact hash_demo_checks.
  - reflexivity.
  - reflexivity.
  - vm_compute. reflexivity.
Defined.

(** Witness of [X20_owner_register_login]: ["bob"] registers, then logs
    in. *)
Lemma X20_owner_register_login_witness :
  owner_login mquery_str check_demo 60000000
    (login_req (JStr "bob@example.com") (JStr "pw2"))
    (snd (owner_register mquery_str hash_demo accept_legacy 0 owner_req acc0))
  = LOk "owner" "000000000000000000000001" (60000000 / 1000000 + 86400).
Proof.
  apply (X20_owner_register_login mquery_str hash_demo check_demo accept_legacy
           0 60000000 owner_req acc0 "Turf owner created successfully").
  - exact mquery_str_finds.
  - exact hash_demo_checks.
  - reflexivity.
  - reflexivity.
  - vm_compute. reflexivity.
Defined.

(** Witness of [X21_login_opacity]: ["ann@example.com"] with the wrong
    password ["pw9"], against the accounts after ["ann"] registered. *)
Lemma X21_login_opacity_witness :
  let a := snd (user_register mquery_str hash_demo accept_legacy 0 user_req acc0) in
  let f := str_matcher "ann@example.com" in
  ((forall u, In u (users a) -> f (u_email u) = false) ->
     user_login mquery_str check_demo 0 (login_req (JStr "ann@example.com") (JStr "pw9")) a
     = LMsg 401 "Invalid credentials")
  /\ (forall u, find (fun u => f (u_email u)) (users a) = Some u ->
        check_demo (u_password u) (JStr "pw9") = Some false ->
        user_login mquery_str check_demo 0 (login_req (JStr "ann@example.com") (JStr "pw9")) a
        = LMsg 401 "Invalid credentials")
  /\ ((forall o, In o (owners a) -> f (o_email o) = false) ->
     owner_login mquery_str check_demo 0 (login_req (JStr "ann@example.com") (JStr "pw9")) a
     = LMsg 401 "Invalid credentials")
  /\ (forall o, find (fun o => f (o_email o)) (owners a) = Some o ->
        check_demo (o_password o) (JStr "pw9") = Some false ->
        owner_login mquery_str check_demo 0 (login_req (JStr "ann@example.com") (JStr "pw9")) a
        = LMsg 401 "Invalid credentials").
Proof.
  apply X21_login_opacity; [discriminate|discriminate|reflexivity].
Defined.

(** The login of [X21_login_opacity_witness] with the wrong password, and
    one with an unknown email, are both answered 401. *)
Lemma login_wrong_password_unknown_email :
  let a := snd (user_register mquery_str hash_demo accept_legacy 0 user_req acc0) in
  user_login mquery_str check_demo 0 (login_req (JStr "ann@example.com") (JStr "pw9")) a
    = LMsg 401 "Invalid credentials"
  /\ user_login mquery_str check_demo 0 (login_req (JStr "zed@example.com") (JStr "pw1")) a
    = LMsg 401 "Invalid credentials".
Proof. split; vm_compute; reflexivity. Qed.

End ExtraWitnesses2.
